(** * VideoFusion: black-bar removal batch drivers

    A shallow embedding of [src/common/black_remove.py] (images and videos)
    and [src/common/video_black_remove.py] (videos only), and the properties
    of their batch loops, output naming, failure handling and exit status.

    Python values that the drivers pass around untyped (the configuration
    read from JSON) are kept as [json] values; the file system is a finite
    map from paths to nodes; the detectors, OpenCV, ffmpeg and the JSON
    codec are fields of a record of collaborators, so every statement below
    holds for all of their behaviours. *)

From Stdlib Require Import ZArith String List Ascii Bool Lia.
From stdpp Require Import gmap strings list fin_maps.


Open Scope Z_scope.

#[local] Set Warnings "-register-all".

(* ===================================================================== *)
(** * Python values, exceptions and messages *)
(* ===================================================================== *)

Abbreviation path := (list string).

(** A rectangle as the detectors return it: [(x, y, w, h)] for videos,
    [(x1, y1, x2, y2)] for images. *)
Abbreviation rect := (Z * Z * Z * Z)%type.

(** What [json.load] can produce (numbers restricted to integers). *)
Inductive json :=
| JNull
| JBool (b : bool)
| JInt (z : Z)
| JStr (s : string)
| JList (l : list json)
| JDict (kv : list (string * json)).

(** An f-string is kept as the list of its pieces, interpolated values
    included, instead of being rendered. [Frepr s] is [repr(s)], the form
    in which [str] shows the argument of a [KeyError]. *)
Inductive fragment :=
| Lit (s : string)
| Fpath (p : path)
| Frect (r : rect)
| Fjson (j : json)
| Fstr (s : string)
| Frepr (s : string).

Abbreviation message := (list fragment).

Inductive exn_class :=
| ValueError
| TypeError
| KeyError
| AttributeError
| UnboundLocalError
| FileNotFoundError
| FileExistsError
| NotADirectoryError
| IsADirectoryError
| OSError
| CalledProcessError
| JSONDecodeError
| RuntimeError.

(** An exception: its class and [str(e)]; for [CalledProcessError] the
    message is [e.stderr]; for an error of the operating system the message
    is the path the error names, without the [[Errno n]] text in front of
    it. All classes derive from [Exception]. *)
Record exn := Exn { exn_class_of : exn_class; exn_msg : message }.

Inductive result (A : Type) :=
| Ok (a : A)
| Raise (e : exn).
Arguments Ok {A} a.
Arguments Raise {A} e.

Definition result_bind {A B} (r : result A) (k : A -> result B) : result B :=
  match r with
  | Ok a => k a
  | Raise e => Raise e
  end.

(** Python truthiness, as used by [not crop_enabled] and [not video_path]. *)
Definition truthy (j : json) : bool :=
  match j with
  | JNull => false
  | JBool b => b
  | JInt z => negb (z =? 0)
  | JStr s => negb (String.eqb s "")
  | JList l => match l with [] => false | _ => true end
  | JDict kv => match kv with [] => false | _ => true end
  end.

(** [j == "s"] for a Python string literal [s]. *)
Definition json_eq_str (j : json) (s : string) : bool :=
  match j with
  | JStr t => String.eqb t s
  | _ => false
  end.

Fixpoint assoc (k : string) (kv : list (string * json)) : option json :=
  match kv with
  | [] => None
  | (k', v) :: rest => if String.eqb k k' then Some v else assoc k rest
  end.

(** [type(j).__name__] *)
Definition py_type_name (j : json) : string :=
  match j with
  | JNull => "NoneType"
  | JBool _ => "bool"
  | JInt _ => "int"
  | JStr _ => "str"
  | JList _ => "list"
  | JDict _ => "dict"
  end.

(** [d[k]] for a string [k]; the texts are those of CPython 3.11. *)
Definition py_getitem (d : json) (k : string) : result json :=
  match d with
  | JDict kv =>
      match assoc k kv with
      | Some v => Ok v
      | None => Raise (Exn KeyError [Frepr k])
      end
  | JList _ => Raise (Exn TypeError [Lit "list indices must be integers or slices, not str"])
  | JStr _ => Raise (Exn TypeError [Lit "string indices must be integers, not 'str'"])
  | _ =>
      Raise (Exn TypeError [Lit ("'" +:+ py_type_name d +:+ "' object is not subscriptable")])
  end.

(** [d.get(k, default)] *)
Definition py_get (d : json) (k : string) (default : json) : result json :=
  match d with
  | JDict kv =>
      match assoc k kv with
      | Some v => Ok v
      | None => Ok default
      end
  | _ =>
      Raise (Exn AttributeError
               [Lit ("'" +:+ py_type_name d +:+ "' object has no attribute 'get'")])
  end.

(* ===================================================================== *)
(** * pathlib *)
(* ===================================================================== *)

Module Pathlib.

(** [s.rfind(c)], [None] for -1. *)
Fixpoint rfind (c : ascii) (s : string) : option nat :=
  match s with
  | EmptyString => None
  | String a s' =>
      match rfind c s' with
      | Some i => Some (S i)
      | None => if Ascii.eqb a c then Some 0%nat else None
      end
  end.

(** The index at which [PurePath.suffix] and [PurePath.stem] cut a name:
    [i = name.rfind('.')] when [0 < i < len(name) - 1]. *)
Definition cut (name : string) : option nat :=
  match rfind "."%char name with
  | Some i =>
      if (0 <? i)%nat && (i <? String.length name - 1)%nat then Some i else None
  | None => None
  end.

Definition suffix_of (name : string) : string :=
  match cut name with
  | Some i => substring i (String.length name - i) name
  | None => ""
  end.

Definition stem_of (name : string) : string :=
  match cut name with
  | Some i => substring 0 i name
  | None => name
  end.

(** A path is the list of its parts; [Path('.')] is the empty list. *)
Definition name (p : path) : string := List.last p "".
Definition parent (p : path) : path := List.removelast p.
Definition suffix (p : path) : string := suffix_of (name p).
Definition stem (p : path) : string := stem_of (name p).

(** [p.relative_to(root)]: [None] stands for the [ValueError]. *)
Fixpoint relative_to (p root : path) {struct root} : option path :=
  match root with
  | [] => Some p
  | r :: root' =>
      match p with
      | [] => None
      | c :: p' => if String.eqb c r then relative_to p' root' else None
      end
  end.

(** [a / b] for a relative [b]. *)
Definition joinpath (a b : path) : path := (a ++ b)%list.

(** [str.lower] on names written in ASCII: the letters [A] to [Z] are
    lowered and every other byte is kept. *)
Definition lower_ascii (c : ascii) : ascii :=
  let n := nat_of_ascii c in
  if (65 <=? n)%nat && (n <=? 90)%nat then ascii_of_nat (n + 32) else c.

Fixpoint lower (s : string) : string :=
  match s with
  | EmptyString => EmptyString
  | String c s' => String (lower_ascii c) (lower s')
  end.

(** Splitting a string at a separator, for [Path(str)]. *)
Fixpoint split_on (sep : ascii) (acc : string) (s : string) : list string :=
  match s with
  | EmptyString => [acc]
  | String c s' =>
      if Ascii.eqb c sep then acc :: split_on sep "" s'
      else split_on sep (acc +:+ String c "") s'
  end.

Definition keep_part (s : string) : bool :=
  negb (String.eqb s "") && negb (String.eqb s ".").

(** [Path(s).parts]: empty and ['.'] components are dropped, a leading
    ['/'] is kept as the anchor. *)
Definition of_string (s : string) : path :=
  let parts := List.filter keep_part (split_on "/"%char "" s) in
  match s with
  | String "/"%char _ => "/" :: parts
  | _ => parts
  end.

Fixpoint join_parts (l : list string) : string :=
  match l with
  | [] => ""
  | [a] => a
  | a :: rest => a +:+ "/" +:+ join_parts rest
  end.

(** [str(p)] *)
Definition to_string (p : path) : string :=
  match p with
  | [] => "."
  | "/" :: rest => "/" +:+ join_parts rest
  | _ => join_parts p
  end.

End Pathlib.

(** The naming rule shared by both drivers:
    [output_dir / rel_path.parent / f"{rel_path.stem}_noblack{rel_path.suffix}"]
    with [rel_path = input_path.relative_to(input_dir)]. *)
Definition output_file_of (input_dir output_dir input_path : path) : option path :=
  match Pathlib.relative_to input_path input_dir with
  | Some rel_path =>
      Some (Pathlib.joinpath (Pathlib.joinpath output_dir (Pathlib.parent rel_path))
              [Pathlib.stem rel_path +:+ "_noblack" +:+ Pathlib.suffix rel_path])
  | None => None
  end.

Definition video_extensions : list string := [".mp4"; ".avi"; ".flv"; ".mov"; ".mkv"].
Definition image_extensions : list string :=
  [".png"; ".jpg"; ".jpeg"; ".bmp"; ".gif"; ".tiff"].

Definition str_in (s : string) (l : list string) : bool := existsb (String.eqb s) l.

(* ===================================================================== *)
(** * The file system and the collaborators *)
(* ===================================================================== *)

(** A node of the file system: a directory, or a regular file with its
    bytes. *)
Inductive node :=
| Dir
| File (content : string).

Abbreviation fsys := (gmap path node).

(** The node at a path; the current directory [Path('.')] always exists.
    A path is looked up by its parts as they are written: the file system
    has no symbolic links, and a part [..] is a name like any other, so the
    statements that compare paths ask for paths written without it. *)
Definition node_at (f : fsys) (p : path) : option node :=
  match p with
  | [] => Some Dir
  | _ => f !! p
  end.

(** [p.exists()], [p.is_file()] and [p.is_dir()] as tests that return. The
    [OSError] that [stat] raises for a name the system refuses (a name that
    is too long, a directory that may not be searched) has no place in this
    file system: a statement that assumes the value of a test assumes that
    the test returned. *)
Definition path_exists (f : fsys) (p : path) : bool :=
  match node_at f p with Some _ => true | None => false end.

Definition is_file (f : fsys) (p : path) : bool :=
  match node_at f p with Some (File _) => true | _ => false end.

Definition is_dir (f : fsys) (p : path) : bool :=
  match node_at f p with Some Dir => true | _ => false end.

(** [p.stat().st_size] of a regular file. *)
Definition st_size (f : fsys) (p : path) : option Z :=
  match node_at f p with
  | Some (File c) => Some (Z.of_nat (String.length c))
  | _ => None
  end.

(** [p] lies strictly below [root]. *)
Definition strictly_under (root p : path) : bool :=
  match Pathlib.relative_to p root with
  | Some (_ :: _) => true
  | _ => false
  end.

(** [root.rglob('*')], taken as a snapshot when the loop starts: every path
    below [root] when [root] is a directory, nothing otherwise. The
    generator of Python lists a directory when it reaches it, so the two
    agree when the loop creates nothing below [root]. *)
Definition rglob (f : fsys) (root : path) : list path :=
  if is_dir f root
  then List.filter (strictly_under root) (map fst (map_to_list f))
  else [].

(** The non-empty prefixes of a path, shortest first. *)
Definition prefixes (p : path) : list path :=
  map (fun n => take n p) (seq 1 (length p)).

Inductive remover :=
| VideoRemover
| IMGBlackRemover
| BlackRemover.

(** A decoded image: [img.shape[:2]] and its pixels. *)
Record image := Image { shape_h : Z; shape_w : Z; pixels : string }.

(** The ffmpeg command line of [crop_video]; the fixed arguments
    ([-c:v libx264 -crf 23 -preset medium -c:a copy -y]) are left out. *)
Record ffmpeg_command := Ffmpeg {
  ff_input : path;
  ff_crop_w : Z;
  ff_crop_h : Z;
  ff_crop_x : Z;
  ff_crop_y : Z;
  ff_output : path
}.

Inductive frame_prop :=
| CAP_PROP_FRAME_WIDTH
| CAP_PROP_FRAME_HEIGHT.

(** The result document of [main]. *)
Record job_result := JobResult {
  success : bool;
  video_path : option string;
  environment_info : option (string * string);
  error : option message
}.

Inductive io_op :=
| OpMkdir (p : path)
| OpCopy (src dst : path)
| OpOpenWrite (p : path).

(** Everything the drivers call and do not define. Each collaborator sees
    the current file system; none of them changes it except through the
    value it returns ([subprocess_run] and [cv2_imwrite] return the bytes
    written to the output path). *)
Record collaborators := Collaborators {
  (** [VideoRemover().remove_black(path)] *)
  video_remover_remove_black : fsys -> path -> result rect;
  (** [IMGBlackRemover().remove_black(path, max_frames=n)] *)
  img_black_remover_remove_black : fsys -> path -> option json -> result rect;
  (** [BlackRemover().start(img_path=path)] *)
  black_remover_start : fsys -> path -> result rect;
  (** [int(cv2.VideoCapture(path).get(prop))] *)
  cv2_video_capture_get : fsys -> path -> frame_prop -> result Z;
  (** [cv2.imread(path)], [None] when the file cannot be decoded *)
  cv2_imread : fsys -> path -> result (option image);
  (** [cv2.imwrite(path, img[y1:y2, x1:x2])]: the bytes written, [None]
      when it returns without writing *)
  cv2_imwrite : fsys -> path -> image -> rect -> result (option string);
  (** [subprocess.run(command, check=True, ...)]: the bytes of the output
      file on exit status 0; [CalledProcessError] on another status,
      [FileNotFoundError] when there is no ffmpeg *)
  subprocess_run : fsys -> ffmpeg_command -> result string;
  (** an operating-system error on a write, if any *)
  io_fault : fsys -> io_op -> option exn;
  (** [json.load] on the bytes of a file *)
  json_load : string -> result json;
  (** the bytes [json.dump(result, f, ensure_ascii=False, indent=2)] writes *)
  json_dump : job_result -> string;
  sys_executable : string;
  conda_default_env : option string
}.

(** Calls and output lines, in the order they happen. *)
Inductive event :=
| Print (m : message)
| EGetRemover (media_type : string) (algorithm : json)
| ERemoveBlack (r : remover) (p : path) (max_frames : option json)
| EStart (r : remover) (p : path)
| EVideoCaptureGet (p : path) (prop : frame_prop)
| EImread (p : path)
| EMkdir (p : path)
| ECopy2 (src dst : path)
| ESubprocessRun (cmd : ffmpeg_command)
| EImwrite (dst : path) (r : rect)
| EOpenWrite (p : path).

Record world := World { files : fsys; trace : list event }.

(* ===================================================================== *)
(** * The monad of the drivers: state and exceptions *)
(* ===================================================================== *)

Definition M (A : Type) : Type := world -> result A * world.

Definition ret {A} (a : A) : M A := fun w => (Ok a, w).

Definition raise {A} (e : exn) : M A := fun w => (Raise e, w).

Definition bind {A B} (m : M A) (k : A -> M B) : M B :=
  fun w =>
    match m w with
    | (Ok a, w') => k a w'
    | (Raise e, w') => (Raise e, w')
    end.

(** [try: m  except Exception as e: h e] *)
Definition try_except {A} (m : M A) (h : exn -> M A) : M A :=
  fun w =>
    match m w with
    | (Ok a, w') => (Ok a, w')
    | (Raise e, w') => h e w'
    end.

Declare Scope py_scope.
Delimit Scope py_scope with py.
Notation "'let*' x ':=' m 'in' k" := (bind m (fun x => k))
  (at level 10, x pattern, m at level 100, k at level 200) : py_scope.
Notation "m ';;' k" := (bind m (fun _ => k))
  (at level 100, k at level 200, right associativity) : py_scope.
Open Scope py_scope.

Definition lift {A} (r : result A) : M A := fun w => (r, w).

Definition emit (e : event) : M unit :=
  fun w => (Ok tt, World (files w) (trace w ++ [e])).

Definition print (m : message) : M unit := emit (Print m).

Definition get_files : M fsys := fun w => (Ok (files w), w).

Definition set_files (f : fsys) : M unit :=
  fun w => (Ok tt, World f (trace w)).

(** A call to a read-only collaborator. *)
Definition ask {A} (e : event) (q : fsys -> result A) : M A :=
  emit e;; let* f := get_files in lift (q f).

(** A loop whose body may raise: the first exception leaves the loop. *)
Fixpoint for_each {A B} (body : A -> M B) (l : list A) : M (list (A * B)) :=
  match l with
  | [] => ret []
  | a :: rest =>
      let* b := body a in
      let* bs := for_each body rest in
      ret ((a, b) :: bs)
  end.

(* ===================================================================== *)
(** * Operations on the file system *)
(* ===================================================================== *)

(** Making the directories [qs], the prefixes of one path, shortest
    first. A regular file in the place of the last one is a
    [FileExistsError]; a regular file on the way is the
    [NotADirectoryError] of the first [mkdir] below it. *)
Fixpoint mkdir_chain (qs : list path) (f : fsys) : result fsys :=
  match qs with
  | [] => Ok f
  | q :: qs' =>
      match node_at f q with
      | Some Dir => mkdir_chain qs' f
      | Some (File _) =>
          match qs' with
          | [] => Raise (Exn FileExistsError [Fpath q])
          | q' :: _ => Raise (Exn NotADirectoryError [Fpath q'])
          end
      | None => mkdir_chain qs' (<[q := Dir]> f)
      end
  end.

(** [p.mkdir(parents=True, exist_ok=True)]: the missing directories on the
    way to [p] are created; a regular file on the way is an error, which
    leaves the file system as it was. pathlib calls [mkdir] on [p] first,
    so the error names [p]. *)
Definition mkdir_parents (ext : collaborators) (p : path) : M unit :=
  emit (EMkdir p);;
  let* f := get_files in
  match io_fault ext f (OpMkdir p) with
  | Some e => raise e
  | None =>
      match mkdir_chain (prefixes p) f with
      | Ok f' => set_files f'
      | Raise e => raise (Exn (exn_class_of e) [Fpath p])
      end
  end.

(** [os.makedirs(os.path.dirname(output_path), exist_ok=True)]: the
    directory name of a bare file name is the empty string, which
    [os.makedirs] refuses. [os.makedirs] goes down from the first
    directory that exists, so its error names the path of the [mkdir]
    that failed. *)
Definition os_makedirs (ext : collaborators) (p : path) : M unit :=
  emit (EMkdir p);;
  match p with
  | [] => raise (Exn FileNotFoundError [Lit ""])
  | _ =>
      let* f := get_files in
      match io_fault ext f (OpMkdir p) with
      | Some e => raise e
      | None =>
          match mkdir_chain (prefixes p) f with
          | Ok f' => set_files f'
          | Raise e => raise e
          end
      end
  end.

(** The error of opening [target] for writing when its directory is not
    there: [NotADirectoryError] when a regular file is on the way,
    [FileNotFoundError] otherwise. *)
Definition no_directory_error (f : fsys) (target : path) : exn :=
  if existsb (is_file f) (prefixes (Pathlib.parent target))
  then Exn NotADirectoryError [Fpath target]
  else Exn FileNotFoundError [Fpath target].

(** [shutil.copy2(src, dst)] *)
Definition copy2 (ext : collaborators) (src dst : path) : M unit :=
  emit (ECopy2 src dst);;
  let* f := get_files in
  match io_fault ext f (OpCopy src dst) with
  | Some e => raise e
  | None =>
      match node_at f src with
      | Some (File c) =>
          let target := if is_dir f dst then (dst ++ [Pathlib.name src])%list else dst in
          if is_dir f target then raise (Exn IsADirectoryError [Fpath target])
          else if is_dir f (Pathlib.parent target)
               then set_files (<[target := File c]> f)
               else raise (no_directory_error f target)
      | Some Dir => raise (Exn IsADirectoryError [Fpath src])
      | None => raise (Exn FileNotFoundError [Fpath src])
      end
  end.

(** [subprocess.run(command, check=True, ...)] on the ffmpeg command. *)
Definition run_ffmpeg (ext : collaborators) (cmd : ffmpeg_command) : M unit :=
  emit (ESubprocessRun cmd);;
  let* f := get_files in
  match subprocess_run ext f cmd with
  | Ok bytes => set_files (<[ff_output cmd := File bytes]> f)
  | Raise e => raise e
  end.

(** [cv2.imwrite(output_path, cropped_img)] *)
Definition imwrite (ext : collaborators) (dst : path) (img : image) (r : rect) : M unit :=
  emit (EImwrite dst r);;
  let* f := get_files in
  match cv2_imwrite ext f dst img r with
  | Ok (Some bytes) => set_files (<[dst := File bytes]> f)
  | Ok None => ret tt
  | Raise e => raise e
  end.

(** [Path(x)] for a value read from the configuration. *)
Definition Path (j : json) : result path :=
  match j with
  | JStr s => Ok (Pathlib.of_string s)
  | _ =>
      Raise (Exn TypeError
               [Lit ("expected str, bytes or os.PathLike object, not " +:+ py_type_name j)])
  end.

(** How the loop body was left for one path. [Failed] is the [except] of
    the per-file [try]; [CropToolFailed] is a failure that [crop_video]
    printed and swallowed; [Ignored] is a path skipped without a line. *)
Inductive outcome :=
| Ignored
| SkippedUnsupported
| SkippedExisting
| SkippedDamaged
| Copied
| Cropped
| CropToolFailed (e : exn)
| Failed (e : exn).

(** [remover.remove_black(path[, max_frames=n])], by the class of
    [remover]. *)
Definition remove_black (ext : collaborators) (r : remover) (p : path)
    (max_frames : option json) : M rect :=
  ask (ERemoveBlack r p max_frames)
    (fun f =>
       match r with
       | VideoRemover => video_remover_remove_black ext f p
       | IMGBlackRemover => img_black_remover_remove_black ext f p max_frames
       | BlackRemover =>
           Raise (Exn AttributeError [Lit "'BlackRemover' object has no attribute 'remove_black'"])
       end).

(** [remover.start(img_path=path)] *)
Definition start (ext : collaborators) (r : remover) (p : path) : M rect :=
  ask (EStart r p)
    (fun f =>
       match r with
       | BlackRemover => black_remover_start ext f p
       | _ => Raise (Exn AttributeError [Lit "object has no attribute 'start'"])
       end).

Definition check_environment (ext : collaborators) : string * string :=
  (sys_executable ext,
   match conda_default_env ext with Some s => s | None => "None" end).

(** The media type of a lower-cased suffix, [None] when unsupported. *)
Definition media_type_of (suffix : string) : option string :=
  if str_in suffix video_extensions then Some "video"
  else if str_in suffix image_extensions then Some "image"
  else None.

(** Writing the result document in the [finally] of both [main]s:
    [open(output_file, 'w')] then [json.dump]. [output_file] is unbound
    when [sys.argv] had the wrong length. *)
Definition write_result (ext : collaborators) (output_file : option string)
    (r : job_result) : M unit :=
  match output_file with
  | None =>
      raise (Exn UnboundLocalError [Lit "local variable 'output_file' referenced before assignment"])
  | Some s =>
      let p := Pathlib.of_string s in
      emit (EOpenWrite p);;
      let* f := get_files in
      match io_fault ext f (OpOpenWrite p) with
      | Some e => raise e
      | None =>
          if is_dir f p then raise (Exn IsADirectoryError [Fpath p])
          else if is_dir f (Pathlib.parent p)
               then set_files (<[p := File (json_dump ext r)]> f)
               else raise (no_directory_error f p)
      end
  end.

(** [with open(input_file, 'r') as f: json.load(f)]. The two arguments of
    [main] are strings that [os.path.exists] and [open] read as the
    system does; here they are read by their parts, which is the same for
    a string that names a file ([names_a_file] below) and does not tell a
    trailing [/] from the file itself. *)
Definition load_config (ext : collaborators) (input_file : string) : M json :=
  let* f := get_files in
  match node_at f (Pathlib.of_string input_file) with
  | Some (File c) => lift (json_load ext c)
  | Some Dir => raise (Exn IsADirectoryError [Fstr input_file])
  | None => raise (Exn FileNotFoundError [Fstr input_file])
  end.

(** What a run of [main] ends with: the status passed to [sys.exit], the
    result dictionary as it stood in the [finally], and whether the
    document was written. *)
Record exit_report := ExitReport {
  exit_code : Z;
  document : job_result;
  written : bool
}.

(** The [except Exception] and [finally] of both [main]s, around the body
    [body] of the [try]. *)
Definition main_frame (ext : collaborators) (argv : list string)
    (body : M string) : world -> exit_report * world :=
  fun w =>
    let output_file :=
      if (length argv =? 3)%nat then Some (nth 2 argv "") else None in
    let '(r, w1) :=
      match body w with
      | (Ok out, w') =>
          (JobResult true (Some out) (Some (check_environment ext)) None,
           World (files w') (trace w' ++ [Print [Lit "批量处理完成"]]))
      | (Raise e, w') =>
          (JobResult false None None (Some (exn_msg e)),
           World (files w') (trace w' ++ [Print (Lit "处理失败: " :: exn_msg e)]))
      end in
    match write_result ext output_file r w1 with
    | (Ok _, w2) => (ExitReport (if success r then 0 else 1) r true, w2)
    | (Raise e, w2) =>
        (ExitReport 1 r false,
         World (files w2) (trace w2 ++ [Print (Lit "写入输出文件失败: " :: exn_msg e)]))
    end.

(* ===================================================================== *)
(** * black_remove.py *)
(* ===================================================================== *)

Module BlackRemove.

(** [crop_video]: returns [Cropped] where the source prints the success
    line and [CropToolFailed] where it prints one of the two failure
    lines; Python returns [None] in all three cases. *)
Definition crop_video (ext : collaborators) (input_path output_path : path)
    (r : rect) : M outcome :=
  let '(x, y, w, h) := r in
  if (w <=? 0) || (h <=? 0)
  then raise (Exn ValueError [Lit "无效的裁剪参数: "; Frect r])
  else
    let command := Ffmpeg input_path w h x y output_path in
    try_except
      (run_ffmpeg ext command;;
       print [Lit "视频裁剪完成: "; Fpath input_path; Lit " -> "; Fpath output_path];;
       ret Cropped)
      (fun e =>
         match exn_class_of e with
         | CalledProcessError =>
             print ([Lit "视频裁剪失败 "; Fpath input_path; Lit ": "] ++ exn_msg e);;
             ret (CropToolFailed e)
         | FileNotFoundError =>
             print [Lit "未找到ffmpeg，请确保已安装并添加到环境变量"];;
             ret (CropToolFailed e)
         | _ => raise e
         end).

Definition crop_image (ext : collaborators) (input_path output_path : path)
    (r : rect) : M outcome :=
  let '(x1, y1, x2, y2) := r in
  let w := x2 - x1 in
  let h := y2 - y1 in
  if (w <=? 0) || (h <=? 0)
  then raise (Exn ValueError [Lit "无效的裁剪参数: "; Frect r])
  else
    let* img := ask (EImread input_path) (fun f => cv2_imread ext f input_path) in
    match img with
    | None => raise (Exn FileNotFoundError [Lit "无法读取图片: "; Fpath input_path])
    | Some img =>
        os_makedirs ext (Pathlib.parent output_path);;
        imwrite ext output_path img r;;
        print [Lit "图片裁剪完成: "; Fpath input_path; Lit " -> "; Fpath output_path];;
        ret Cropped
    end.

Definition get_remover (media_type : string) (algorithm : json) : result remover :=
  if String.eqb media_type "video" then
    if json_eq_str algorithm "dynamic" then Ok VideoRemover
    else if json_eq_str algorithm "static" then Ok IMGBlackRemover
    else Raise (Exn ValueError [Lit "不支持的视频算法: "; Fjson algorithm])
  else if String.eqb media_type "image" then Ok BlackRemover
  else Raise (Exn ValueError [Lit "不支持的媒体类型: "; Fstr media_type]).

(** The keyword arguments of [batch_process_media], as [main] passes them. *)
Record options := Options {
  crop_enabled : json;
  video_algorithm : json;
  max_frames : json
}.

(** Lines 137-141 and 145-148: the comparison that decides [has_black]. *)
Definition video_has_black (r : rect) (original_w original_h : Z) : bool :=
  let '(x, y, w, h) := r in
  negb ((w =? original_w) && (h =? original_h)).

Definition image_has_black (r : rect) (original_w original_h : Z) : bool :=
  let '(x1, y1, x2, y2) := r in
  negb ((x1 =? 0) && (y1 =? 0) && (x2 =? original_w) && (y2 =? original_h)).

(** Lines 150-159: copy or crop. *)
Definition copy_or_crop (ext : collaborators) (opts : options) (media_type : string)
    (input_path output_file : path) (r : rect) (has_black : bool) : M outcome :=
  if negb (truthy (crop_enabled opts)) || negb has_black then
    mkdir_parents ext (Pathlib.parent output_file);;
    copy2 ext input_path output_file;;
    print [Lit "无需裁剪，复制完成: "; Fpath input_path; Lit " -> "; Fpath output_file];;
    ret Copied
  else if String.eqb media_type "video"
  then crop_video ext input_path output_file r
  else crop_image ext input_path output_file r.

(** Lines 128-148: strategy selection, detection and the [has_black]
    decision; returns [rect] and [has_black]. *)
Definition detect (ext : collaborators) (opts : options) (media_type : string)
    (input_path : path) : M (rect * bool) :=
  emit (EGetRemover media_type (video_algorithm opts));;
  let* remover := lift (get_remover media_type (video_algorithm opts)) in
  if String.eqb media_type "video" then
    let* r :=
      if json_eq_str (video_algorithm opts) "static"
      then remove_black ext remover input_path (Some (max_frames opts))
      else remove_black ext remover input_path None in
    let* original_w :=
      ask (EVideoCaptureGet input_path CAP_PROP_FRAME_WIDTH)
        (fun f => cv2_video_capture_get ext f input_path CAP_PROP_FRAME_WIDTH) in
    let* original_h :=
      ask (EVideoCaptureGet input_path CAP_PROP_FRAME_HEIGHT)
        (fun f => cv2_video_capture_get ext f input_path CAP_PROP_FRAME_HEIGHT) in
    ret (r, video_has_black r original_w original_h)
  else
    let* r := start ext remover input_path in
    let* img := ask (EImread input_path) (fun f => cv2_imread ext f input_path) in
    match img with
    | None => raise (Exn AttributeError [Lit "'NoneType' object has no attribute 'shape'"])
    | Some img => ret (r, image_has_black r (shape_w img) (shape_h img))
    end.

(** Lines 128-159: the body of the per-file [try]. *)
Definition try_body (ext : collaborators) (opts : options) (media_type : string)
    (input_path output_file : path) : M outcome :=
  let* d := detect ext opts media_type input_path in
  copy_or_crop ext opts media_type input_path output_file (fst d) (snd d).

(** Lines 105-163: the body of the loop for one path of the walk. *)
Definition process_path (ext : collaborators) (opts : options)
    (input_dir output_dir input_path : path) : M outcome :=
  let* f := get_files in
  if negb (is_file f input_path) then ret Ignored
  else
    match media_type_of (Pathlib.lower (Pathlib.suffix input_path)) with
    | None =>
        print [Lit "跳过不支持的文件: "; Fpath input_path];;
        ret SkippedUnsupported
    | Some media_type =>
        match output_file_of input_dir output_dir input_path with
        | None => raise (Exn ValueError [Fpath input_path; Lit " is not in the subpath of "; Fpath input_dir])
        | Some output_file =>
            if path_exists f output_file then
              print [Lit "已处理，跳过: "; Fpath input_path];;
              ret SkippedExisting
            else
              try_except
                (try_body ext opts media_type input_path output_file)
                (fun e =>
                   print ([Lit "处理文件 "; Fpath input_path; Lit " 失败: "] ++ exn_msg e);;
                   ret (Failed e))
        end
    end.

(** The loop over an explicit walk. *)
Definition process_all (ext : collaborators) (opts : options)
    (input_dir output_dir : path) (walk : list path) : M (list (path * outcome)) :=
  for_each (process_path ext opts input_dir output_dir) walk.

(** [batch_process_media]; besides [str(output_dir)] the model returns how
    each path of the walk was left. *)
Definition batch_process_media (ext : collaborators) (input_dir output_dir : json)
    (opts : options) : M (string * list (path * outcome)) :=
  let* input_dir := lift (Path input_dir) in
  let* output_dir := lift (Path output_dir) in
  mkdir_parents ext output_dir;;
  let* f := get_files in
  let* outcomes := process_all ext opts input_dir output_dir (rglob f input_dir) in
  ret (Pathlib.to_string output_dir, outcomes).

(** Lines 190-197: the values [main] takes from the configuration, with
    their defaults. *)
Definition read_config (input_data : json) : result (json * json * options) :=
  result_bind (py_getitem input_data "params") (fun params =>
  result_bind (py_get params "video_path" (JDict [])) (fun vp =>
  result_bind (py_get vp "video_path" JNull) (fun media_path =>
  result_bind (py_getitem input_data "config") (fun config =>
  result_bind (py_get config "output_path" (JStr "output_noblack")) (fun output_path =>
  result_bind (py_get config "crop_enabled" (JBool true)) (fun crop_enabled =>
  result_bind (py_get config "video_algorithm" (JStr "dynamic")) (fun video_algorithm =>
  result_bind (py_get config "max_frames" (JInt 500)) (fun max_frames =>
  Ok (media_path, output_path,
      Options crop_enabled video_algorithm max_frames))))))))).

(** Lines 178-209: the body of the [try] of [main]. *)
Definition main_body (ext : collaborators) (argv : list string) : M string :=
  if negb (length argv =? 3)%nat
  then raise (Exn ValueError [Lit "用法: python black_remove.py <input_file> <output_file>"])
  else
    let input_file := nth 1 argv "" in
    let* f := get_files in
    if negb (path_exists f (Pathlib.of_string input_file))
    then raise (Exn FileNotFoundError [Lit "输入文件不存在: "; Fstr input_file])
    else
      let* input_data := load_config ext input_file in
      let* cfg := lift (read_config input_data) in
      let* r := batch_process_media ext (fst (fst cfg)) (snd (fst cfg)) (snd cfg) in
      ret (fst r).

Definition main (ext : collaborators) (argv : list string) : world -> exit_report * world :=
  main_frame ext argv (main_body ext argv).

End BlackRemove.

(* ===================================================================== *)
(** * video_black_remove.py *)
(* ===================================================================== *)

Module VideoBlackRemove.

(** [crop_video] of this file: no check of the rectangle. *)
Definition crop_video (ext : collaborators) (input_path output_path : path)
    (r : rect) : M outcome :=
  let '(x, y, w, h) := r in
  let command := Ffmpeg input_path w h x y output_path in
  try_except
    (run_ffmpeg ext command;;
     print [Lit "裁剪完成: "; Fpath input_path; Lit " -> "; Fpath output_path];;
     ret Cropped)
    (fun e =>
       match exn_class_of e with
       | CalledProcessError =>
           print ([Lit "裁剪失败"; Fpath input_path; Lit ": "] ++ exn_msg e);;
           ret (CropToolFailed e)
       | FileNotFoundError =>
           print [Lit "未找到ffmpeg，请确保已安装并添加到环境变量"];;
           ret (CropToolFailed e)
       | _ => raise e
       end).

(** Line 74: the test that decides between copy and crop. *)
Definition no_black (r : rect) (st_size : Z) : bool :=
  let '(x, y, w, h) := r in
  (w =? st_size) && (h =? st_size).

(** [input_path.stat().st_size] *)
Definition stat_size (input_path : path) : M Z :=
  let* f := get_files in
  match st_size f input_path with
  | Some n => ret n
  | None => raise (Exn FileNotFoundError [Fpath input_path])
  end.

(** Lines 56-80: the body of the loop for one path of the walk. Nothing
    here is inside a [try]. *)
Definition process_path (ext : collaborators) (input_dir output_dir input_path : path)
    : M outcome :=
  let* f := get_files in
  if str_in (Pathlib.lower (Pathlib.suffix input_path)) video_extensions
     && is_file f input_path
  then
    match output_file_of input_dir output_dir input_path with
    | None => raise (Exn ValueError [Fpath input_path; Lit " is not in the subpath of "; Fpath input_dir])
    | Some output_file =>
        if path_exists f output_file then
          print [Lit "已处理，跳过: "; Fpath input_path];;
          ret SkippedExisting
        else
          let* max_rect := remove_black ext VideoRemover input_path None in
          let '(x, y, w, h) := max_rect in
          if (w <=? 0) || (h <=? 0) then
            print [Lit "跳过损坏视频: "; Fpath input_path];;
            ret SkippedDamaged
          else
            let* size := stat_size input_path in
            if no_black max_rect size then
              mkdir_parents ext (Pathlib.parent output_file);;
              copy2 ext input_path output_file;;
              print [Lit "无黑边，复制完成: "; Fpath input_path; Lit " -> "; Fpath output_file];;
              ret Copied
            else
              mkdir_parents ext (Pathlib.parent output_file);;
              crop_video ext input_path output_file max_rect
    end
  else ret Ignored.

Definition process_all (ext : collaborators) (input_dir output_dir : path)
    (walk : list path) : M (list (path * outcome)) :=
  for_each (process_path ext input_dir output_dir) walk.

Definition batch_crop_videos (ext : collaborators) (input_dir output_dir : json)
    : M (string * list (path * outcome)) :=
  let* input_dir := lift (Path input_dir) in
  let* output_dir := lift (Path output_dir) in
  mkdir_parents ext output_dir;;
  let* f := get_files in
  let* outcomes := process_all ext input_dir output_dir (rglob f input_dir) in
  ret (Pathlib.to_string output_dir, outcomes).

(** Lines 110-113: the values [main] takes from the configuration. *)
Definition read_config (input_data : json) : result (json * json) :=
  result_bind (py_getitem input_data "params") (fun params =>
  result_bind (py_get params "video_path" JNull) (fun vp =>
  result_bind (py_get vp "video_path" JNull) (fun video_path =>
  result_bind (py_getitem input_data "config") (fun config =>
  result_bind (py_get config "output_path" (JStr "output_noblack")) (fun output_path =>
  if negb (truthy video_path)
  then Raise (Exn KeyError [Frepr "输入JSON缺少'video_path'参数"])
  else Ok (video_path, output_path)))))).

(** Lines 96-119: the body of the [try] of [main]. *)
Definition main_body (ext : collaborators) (argv : list string) : M string :=
  if negb (length argv =? 3)%nat
  then raise (Exn ValueError [Lit "用法: python video_black_remover.py <input_file> <output_file>"])
  else
    let input_file := nth 1 argv "" in
    let* f := get_files in
    if negb (path_exists f (Pathlib.of_string input_file))
    then raise (Exn FileNotFoundError [Lit "输入文件不存在: "; Fstr input_file])
    else
      let* input_data := load_config ext input_file in
      let* cfg := lift (read_config input_data) in
      let* r := batch_crop_videos ext (fst cfg) (snd cfg) in
      ret (fst r).

Definition main (ext : collaborators) (argv : list string) : world -> exit_report * world :=
  main_frame ext argv (main_body ext argv).

End VideoBlackRemove.

(* ===================================================================== *)
(** * Predicates used in the statements *)
(* ===================================================================== *)

(** The events that write, or try to write, to the file system. *)
Definition is_write (e : event) : bool :=
  match e with
  | EMkdir _ | ECopy2 _ _ | ESubprocessRun _ | EImwrite _ _ | EOpenWrite _ => true
  | _ => false
  end.

(** The events of strategy selection, detection and probing. *)
Definition is_detection (e : event) : bool :=
  match e with
  | EGetRemover _ _ | ERemoveBlack _ _ _ | EStart _ _
  | EVideoCaptureGet _ _ | EImread _ => true
  | _ => false
  end.






(** The rectangle normalises to a width or a height that is not positive:
    [(x, y, w, h)] for a video, [(x1, y1, x2, y2)] for an image. *)
Definition degenerate (media_type : string) (r : rect) : bool :=
  let '(a, b, c, d) := r in
  if String.eqb media_type "video"
  then (c <=? 0) || (d <=? 0)
  else (c - a <=? 0) || (d - b <=? 0).

(** The line [crop_video] prints for an exception it handles; [intro] is
    the text before the path, which differs between the two files. *)
Definition crop_failure_line (intro : string) (p : path) (e : exn) : message :=
  match exn_class_of e with
  | CalledProcessError => [Lit intro; Fpath p; Lit ": "] ++ exn_msg e
  | _ => [Lit "未找到ffmpeg，请确保已安装并添加到环境变量"]
  end.



(** The path is written without a part [..]. *)
Definition lexical (p : path) : bool :=
  forallb (fun s => negb (String.eqb s "..")) p.

(** [p.is_absolute()] *)
Definition absolute (p : path) : bool :=
  match p with
  | c :: _ => String.eqb c "/"
  | [] => false
  end.








(** [p] is the output root, one of its ancestors, or below the output
    root. *)
Definition around (output_dir p : path) : bool :=
  match Pathlib.relative_to p output_dir, Pathlib.relative_to output_dir p with
  | None, None => false
  | _, _ => true
  end.

(** From [f] to [f']: every node of [f] is in [f'] as it was, and every
    new path lies around the output root. *)
Definition grows (output_dir : path) (f f' : fsys) : Prop :=
  forall p, f' !! p = f !! p \/ (f !! p = None /\ around output_dir p = true).

(** Neither path is the other one or a prefix of it. *)
Definition apart (a b : path) : bool :=
  match Pathlib.relative_to a b, Pathlib.relative_to b a with
  | None, None => true
  | _, _ => false
  end.

(** Neither directory is the other one or inside it. Comparing the parts
    decides this when both paths are written without [..] and both are
    absolute or both relative to the current directory; [x/../clips], or
    an absolute spelling of a relative path, would name a directory that
    the parts do not show. *)
Definition separate (a b : path) : bool :=
  lexical a && lexical b && Bool.eqb (absolute a) (absolute b) && apart a b.

(** What the loop knows of a target whose existence test failed: it is
    not there, it lies below the output root, and so do the directories on
    the way to it. *)
Definition fresh_target (output_dir : path) (f : fsys) (t : path) : Prop :=
  f !! t = None
  /\ t <> []
  /\ around output_dir t = true
  /\ (forall q, In q (prefixes (Pathlib.parent t)) -> around output_dir q = true)
  /\ ~ In t (prefixes (Pathlib.parent t)).

(** What both batch functions guarantee for the file system [f] they start
    from and the file systems [f1] ([batch_process_media]) and [f2]
    ([batch_crop_videos]) they end with. *)
Definition write_frame (input_dir output_dir : path) (f f1 f2 : fsys) : Prop :=
  (forall p n, f !! p = Some n -> f1 !! p = Some n /\ f2 !! p = Some n)
  /\ (forall p, f !! p = None -> f1 !! p <> None \/ f2 !! p <> None ->
                 around output_dir p = true)
  /\ (separate input_dir output_dir = true ->
       forall p rel, Pathlib.relative_to p input_dir = Some rel ->
                     f1 !! p = f !! p /\ f2 !! p = f !! p).

(* ===================================================================== *)
(** * A sample installation, for the concrete runs *)
(* ===================================================================== *)

(** The detectors of the sample, by file name: [bad.mp4] cannot be opened,
    [flat.mp4] yields an empty rectangle, [full.mp4] fills its 1920x800
    frame, any other video has bars above and below. *)
Definition sample_rect (p : path) : result rect :=
  let n := Pathlib.name p in
  if String.eqb n "bad.mp4" then Raise (Exn RuntimeError [Lit "cannot open video"])
  else if String.eqb n "flat.mp4" then Ok (0, 0, 0, 0)
  else if String.eqb n "full.mp4" then Ok (0, 0, 1920, 800)
  else Ok (0, 140, 1920, 520).

(** ffmpeg writes its output when the directory of the output exists. *)
Definition sample_ffmpeg (f : fsys) (cmd : ffmpeg_command) : result string :=
  if is_dir f (Pathlib.parent (ff_output cmd)) then Ok "cropped video"
  else Raise (Exn CalledProcessError [Lit "No such file or directory"]).

Definition sample_config (input_root : string) : json :=
  JDict [("params", JDict [("video_path", JDict [("video_path", JStr input_root)])]);
         ("config", JDict [("output_path", JStr "out")])].

Definition sample_json_load (bytes : string) : result json :=
  if String.eqb bytes "config for clips" then Ok (sample_config "clips")
  else if String.eqb bytes "config for missing" then Ok (sample_config "missing")
  else Raise (Exn JSONDecodeError [Lit "Expecting value"]).

Definition sample_with (run : fsys -> ffmpeg_command -> result string) : collaborators :=
  {| video_remover_remove_black := fun _ p => sample_rect p;
     img_black_remover_remove_black := fun _ p _ => sample_rect p;
     black_remover_start := fun _ _ => Ok (0, 0, 640, 480);
     cv2_video_capture_get := fun _ _ prop =>
       match prop with
       | CAP_PROP_FRAME_WIDTH => Ok 1920
       | CAP_PROP_FRAME_HEIGHT => Ok 800
       end;
     cv2_imread := fun _ _ => Ok (Some (Image 480 640 "pixels"));
     cv2_imwrite := fun _ _ _ _ => Ok (Some "cropped image");
     subprocess_run := run;
     io_fault := fun _ _ => None;
     json_load := sample_json_load;
     json_dump := fun r => if success r then "success: true" else "success: false";
     sys_executable := "/usr/bin/python3";
     conda_default_env := None |}.

Definition sample : collaborators := sample_with sample_ffmpeg.


Definition world_of (nodes : list (path * node)) : world :=
  World (list_to_map nodes) [].

Definition default_options : BlackRemove.options :=
  BlackRemove.Options (JBool true) (JStr "dynamic") (JInt 500).

Definition no_crop_options : BlackRemove.options :=
  BlackRemove.Options (JBool false) (JStr "dynamic") (JInt 500).


(** A tree with a video that has bars, a video that has none, an image
    and a text file. *)
Definition sample_world : world :=
  world_of
    [ (["config.json"], File "config for clips");
      (["clips"], Dir);
      (["clips"; "top.mp4"], File "0123456789");
      (["clips"; "a"], Dir);
      (["clips"; "a"; "full.mp4"], File "0123456789abcdef");
      (["clips"; "c.PNG"], File "image bytes");
      (["clips"; "notes.txt"], File "text") ].

(** A tree whose first video cannot be opened. *)
Definition failing_world : world :=
  world_of
    [ (["config.json"], File "config for clips");
      (["clips"], Dir);
      (["clips"; "bad.mp4"], File "broken");
      (["clips"; "b.mp4"], File "0123456789") ].

(** A tree with one video on which the detector finds no content. *)
Definition flat_world : world :=
  world_of
    [ (["config.json"], File "config for clips");
      (["clips"], Dir);
      (["clips"; "flat.mp4"], File "0123456789") ].

(** A configuration that names an input root which is not there. *)
Definition missing_world : world :=
  world_of [ (["config.json"], File "config for missing") ].


(** The sample installation on which a video that cannot be opened has a
    frame of 0x0, as [cv2.VideoCapture.get] reports it. *)
Definition sample_unopened : collaborators :=
  {| video_remover_remove_black := video_remover_remove_black sample;
     img_black_remover_remove_black := img_black_remover_remove_black sample;
     black_remover_start := black_remover_start sample;
     cv2_video_capture_get := fun _ p prop =>
       if String.eqb (Pathlib.name p) "flat.mp4" then Ok 0
       else cv2_video_capture_get sample ∅ p prop;
     cv2_imread := cv2_imread sample;
     cv2_imwrite := cv2_imwrite sample;
     subprocess_run := subprocess_run sample;
     io_fault := io_fault sample;
     json_load := json_load sample;
     json_dump := json_dump sample;
     sys_executable := sys_executable sample;
     conda_default_env := conda_default_env sample |}.

(* ===================================================================== *)
(** * Further predicates *)
(* ===================================================================== *)

(** A supported file: a lower-cased suffix in one of the two lists. *)
Definition supported (name : string) : bool :=
  match media_type_of (Pathlib.lower (Pathlib.suffix_of name)) with
  | Some _ => true
  | None => false
  end.

(** The name the drivers give to the output of a file called [name]. *)
Definition noblack_name (name : string) : string :=
  Pathlib.stem_of name +:+ "_noblack" +:+ Pathlib.suffix_of name.

(** What stops [main] of [black_remove.py] between reading the
    configuration file and the first write: the exception of [json.load],
    of the look-ups in the configuration, or of [Path] on the two roots. *)
Definition config_error (loaded : result json) : option exn :=
  match loaded with
  | Raise e => Some e
  | Ok input_data =>
      match BlackRemove.read_config input_data with
      | Raise e => Some e
      | Ok cfg =>
          match Path (fst (fst cfg)) with
          | Raise e => Some e
          | Ok _ =>
              match Path (snd (fst cfg)) with
              | Raise e => Some e
              | Ok _ => None
              end
          end
      end
  end.

(** The same for [main] of [video_black_remove.py]. *)
Definition video_config_error (loaded : result json) : option exn :=
  match loaded with
  | Raise e => Some e
  | Ok input_data =>
      match VideoBlackRemove.read_config input_data with
      | Raise e => Some e
      | Ok cfg =>
          match Path (fst cfg) with
          | Raise e => Some e
          | Ok _ =>
              match Path (snd cfg) with
              | Raise e => Some e
              | Ok _ => None
              end
          end
      end
  end.

(** The sample installation reading one given configuration. *)
Definition sample_reading (input_data : json) : collaborators :=
  {| video_remover_remove_black := video_remover_remove_black sample;
     img_black_remover_remove_black := img_black_remover_remove_black sample;
     black_remover_start := black_remover_start sample;
     cv2_video_capture_get := cv2_video_capture_get sample;
     cv2_imread := cv2_imread sample;
     cv2_imwrite := cv2_imwrite sample;
     subprocess_run := subprocess_run sample;
     io_fault := io_fault sample;
     json_load := fun _ => Ok input_data;
     json_dump := json_dump sample;
     sys_executable := sys_executable sample;
     conda_default_env := conda_default_env sample |}.

(** The exceptions [crop_video] handles itself. *)
Definition handled_by_crop_video (e : exn) : bool :=
  match exn_class_of e with
  | CalledProcessError | FileNotFoundError => true
  | _ => false
  end.


(** In the file system [f], the file [p] reported as [Copied] has its
    target, and the target holds the bytes of [p]. *)
Definition copied_faithfully (input_dir output_dir : path) (p : path)
    (o : outcome) (f : fsys) : Prop :=
  o = Copied ->
  exists t c,
    output_file_of input_dir output_dir p = Some t
    /\ f !! t = Some (File c)
    /\ f !! p = Some (File c).







(* ===================================================================== *)
(** * Names: stems, suffixes and the output path *)
(* ===================================================================== *)

Section Names.

Lemma append_nil (b : string) : "" +:+ b = b.
Proof. reflexivity. Qed.

Lemma append_cons (c : ascii) (a b : string) :
  String c a +:+ b = String c (a +:+ b).
Proof. reflexivity. Qed.

Lemma append_empty_r (a : string) : a +:+ "" = a.
Proof.
  induction a as [|x a IH]; [reflexivity|].
  now rewrite append_cons, IH.
Qed.

Lemma append_assoc (a b c : string) : (a +:+ b) +:+ c = a +:+ b +:+ c.
Proof.
  induction a as [|x a IH]; [reflexivity|].
  now rewrite !append_cons, IH.
Qed.

Lemma length_append (a b : string) :
  String.length (a +:+ b) = (String.length a + String.length b)%nat.
Proof.
  induction a as [|c a IH]; [reflexivity|].
  rewrite append_cons. simpl. now rewrite IH.
Qed.

Lemma substring_all (s : string) : substring 0 (String.length s) s = s.
Proof. induction s as [|c s IH]; simpl; [reflexivity | now rewrite IH]. Qed.

Lemma substring_append_right (a b : string) :
  substring (String.length a) (String.length b) (a +:+ b) = b.
Proof.
  induction a as [|c a IH]; [apply substring_all|].
  rewrite append_cons. simpl. exact IH.
Qed.

Lemma substring_append_left (a b : string) :
  substring 0 (String.length a) (a +:+ b) = a.
Proof.
  induction a as [|c a IH].
  - rewrite append_nil. destruct b; reflexivity.
  - rewrite append_cons. simpl. now rewrite IH.
Qed.

Lemma rfind_append (c : ascii) (a b : string) :
  Pathlib.rfind c (a +:+ b) =
  match Pathlib.rfind c b with
  | Some i => Some (String.length a + i)%nat
  | None => Pathlib.rfind c a
  end.
Proof.
  induction a as [|x a IH].
  - rewrite append_nil. destruct (Pathlib.rfind c b); reflexivity.
  - rewrite append_cons. simpl. rewrite IH.
    destruct (Pathlib.rfind c b); reflexivity.
Qed.

Lemma rfind_bound (c : ascii) (s : string) (i : nat) :
  Pathlib.rfind c s = Some i -> (i < String.length s)%nat.
Proof.
  revert i; induction s as [|x s IH]; simpl; intros i H; [discriminate|].
  destruct (Pathlib.rfind c s) as [j|].
  - injection H as <-. specialize (IH j eq_refl). lia.
  - destruct (Ascii.eqb x c); [injection H as <-; lia | discriminate].
Qed.

(** The text from the last occurrence of [c] on starts with that
    occurrence, which is its only one. *)
Lemma rfind_tail (c : ascii) (s : string) (i : nat) :
  Pathlib.rfind c s = Some i ->
  Pathlib.rfind c (substring i (String.length s - i) s) = Some 0%nat.
Proof.
  revert i; induction s as [|x s IH]; simpl; intros i H; [discriminate|].
  destruct (Pathlib.rfind c s) as [j|] eqn:E.
  - injection H as <-. simpl. apply IH. reflexivity.
  - destruct (Ascii.eqb x c) eqn:Ex; [|discriminate].
    injection H as <-. simpl. rewrite substring_all. simpl.
    now rewrite E, Ex.
Qed.

Lemma length_substring (s : string) (i : nat) :
  (i <= String.length s)%nat ->
  String.length (substring i (String.length s - i) s) = (String.length s - i)%nat.
Proof.
  revert i; induction s as [|x s IH]; intros i Hi.
  - destruct i; reflexivity.
  - destruct i as [|i]; simpl.
    + now rewrite substring_all.
    + apply IH. simpl in Hi. lia.
Qed.

Lemma substring_split (s : string) (i : nat) :
  (i <= String.length s)%nat ->
  substring 0 i s +:+ substring i (String.length s - i) s = s.
Proof.
  revert i; induction s as [|x s IH]; intros i Hi.
  - destruct i; reflexivity.
  - destruct i as [|i]; simpl.
    + now rewrite append_nil, substring_all.
    + rewrite append_cons, IH; [reflexivity | simpl in Hi; lia].
Qed.

(** [stem + suffix] is the name. *)
Lemma stem_suffix (name : string) :
  Pathlib.stem_of name +:+ Pathlib.suffix_of name = name.
Proof.
  unfold Pathlib.stem_of, Pathlib.suffix_of, Pathlib.cut.
  destruct (Pathlib.rfind "." name) as [i|] eqn:E.
  - destruct ((0 <? i)%nat && (i <? String.length name - 1)%nat).
    + apply substring_split. apply rfind_bound in E. lia.
    + apply append_empty_r.
  - apply append_empty_r.
Qed.

(** A non-empty suffix survives the renaming, and the stem only gains
    ["_noblack"]. *)
Lemma renamed_suffix (name : string) :
  Pathlib.suffix_of name = "" \/
  (Pathlib.suffix_of (Pathlib.stem_of name +:+ "_noblack" +:+ Pathlib.suffix_of name)
     = Pathlib.suffix_of name /\
   Pathlib.stem_of (Pathlib.stem_of name +:+ "_noblack" +:+ Pathlib.suffix_of name)
     = Pathlib.stem_of name +:+ "_noblack").
Proof.
  unfold Pathlib.suffix_of at 1, Pathlib.cut.
  destruct (Pathlib.rfind "." name) as [i|] eqn:E; [|now left].
  destruct ((0 <? i)%nat && (i <? String.length name - 1)%nat) eqn:C; [|now left].
  right.
  apply andb_prop in C as [C0 C1].
  apply Nat.ltb_lt in C0. apply Nat.ltb_lt in C1.
  pose proof (rfind_bound _ _ _ E) as Hb.
  assert (Hsuf : Pathlib.suffix_of name = substring i (String.length name - i) name).
  { unfold Pathlib.suffix_of, Pathlib.cut. rewrite E.
    destruct (0 <? i)%nat eqn:A; [|apply Nat.ltb_ge in A; lia].
    destruct (i <? String.length name - 1)%nat eqn:B; [reflexivity|].
    apply Nat.ltb_ge in B; lia. }
  set (suf := Pathlib.suffix_of name) in *.
  assert (Hlen : String.length suf = (String.length name - i)%nat).
  { rewrite Hsuf. apply length_substring. lia. }
  assert (Hr : Pathlib.rfind "." suf = Some 0%nat).
  { rewrite Hsuf. now apply rfind_tail. }
  set (a := Pathlib.stem_of name +:+ "_noblack").
  assert (Ha : (8 <= String.length a)%nat).
  { unfold a. rewrite length_append. simpl. lia. }
  replace (Pathlib.stem_of name +:+ "_noblack" +:+ suf) with (a +:+ suf).
  2:{ unfold a. apply append_assoc. }
  assert (Hcut : Pathlib.cut (a +:+ suf) = Some (String.length a)).
  { unfold Pathlib.cut. rewrite rfind_append, Hr, Nat.add_0_r, length_append.
    destruct (0 <? String.length a)%nat eqn:A; [|apply Nat.ltb_ge in A; lia].
    destruct (String.length a <? String.length a + String.length suf - 1)%nat eqn:B;
      [reflexivity | apply Nat.ltb_ge in B; lia]. }
  unfold Pathlib.suffix_of, Pathlib.stem_of. rewrite Hcut. split.
  - rewrite length_append.
    replace (String.length a + String.length suf - String.length a)%nat
      with (String.length suf) by lia.
    apply substring_append_right.
  - apply substring_append_left.
Qed.

Lemma relative_to_app (root rel : path) :
  Pathlib.relative_to (root ++ rel) root = Some rel.
Proof.
  induction root as [|r root IH]; simpl; [reflexivity|].
  now rewrite String.eqb_refl.
Qed.

Lemma relative_to_Some (p root rel : path) :
  Pathlib.relative_to p root = Some rel -> p = (root ++ rel)%list.
Proof.
  revert p; induction root as [|r root IH]; simpl; intros p H.
  - now injection H as <-.
  - destruct p as [|c p]; [discriminate|].
    destruct (String.eqb c r) eqn:E; [|discriminate].
    apply String.eqb_eq in E as ->. f_equal. now apply IH.
Qed.

End Names.

(** C5. For an input file at [input_dir / rel], the target is
    [output_dir / rel.parent / (stem + "_noblack" + suffix)]; stem and
    suffix split the file name, so nothing of it is lost; a file with an
    extension keeps it and its stem only gains ["_noblack"]; and
    ["clips/a/b.mp4"] under ["clips"] with output root ["out"] goes to
    ["out/a/b_noblack.mp4"]. *)
Theorem output_file_naming :
  forall (input_dir output_dir rel : path),
    output_file_of input_dir output_dir (input_dir ++ rel) =
      Some (output_dir ++ Pathlib.parent rel ++
            [Pathlib.stem rel +:+ "_noblack" +:+ Pathlib.suffix rel])%list
    /\ Pathlib.stem rel +:+ Pathlib.suffix rel = Pathlib.name rel
    /\ (Pathlib.suffix rel = "" \/
        (Pathlib.suffix_of (Pathlib.stem rel +:+ "_noblack" +:+ Pathlib.suffix rel)
           = Pathlib.suffix rel /\
         Pathlib.stem_of (Pathlib.stem rel +:+ "_noblack" +:+ Pathlib.suffix rel)
           = Pathlib.stem rel +:+ "_noblack"))
    /\ Pathlib.to_string <$>
         output_file_of (Pathlib.of_string "clips") (Pathlib.of_string "out")
           (Pathlib.of_string "clips/a/b.mp4") = Some "out/a/b_noblack.mp4".
Proof.
  intros input_dir output_dir rel. repeat split.
  - unfold output_file_of. rewrite relative_to_app.
    unfold Pathlib.joinpath. now rewrite <- app_assoc.
  - apply stem_suffix.
  - apply renamed_suffix.
Qed.

(* ===================================================================== *)
(** * The exit status and the result document *)
(* ===================================================================== *)

#[global] Arguments str_in : simpl never.
#[global] Arguments media_type_of : simpl never.
#[global] Arguments output_file_of : simpl never.
#[global] Arguments node_at : simpl never.
#[global] Arguments is_file : simpl never.
#[global] Arguments is_dir : simpl never.
#[global] Arguments path_exists : simpl never.
#[global] Arguments st_size : simpl never.
#[global] Arguments rglob : simpl never.
#[global] Arguments prefixes : simpl never.
#[global] Arguments Pathlib.lower : simpl never.
#[global] Arguments Pathlib.suffix : simpl never.
#[global] Arguments Pathlib.parent : simpl never.
#[global] Arguments Pathlib.name : simpl never.
#[global] Arguments Pathlib.of_string : simpl never.
#[global] Arguments Pathlib.to_string : simpl never.
#[global] Arguments truthy : simpl never.
#[global] Arguments json_eq_str : simpl never.

Ltac run_monad :=
  unfold bind, ret, raise, lift, emit, print, get_files, set_files, ask,
    try_except in *; simpl in *.





(* ===================================================================== *)
(** * Resumption: targets that exist are skipped *)
(* ===================================================================== *)

Section Resumption.

Variable ext : collaborators.








End Resumption.




(* ===================================================================== *)
(** * The per-file boundary *)
(* ===================================================================== *)

Section Boundary.

Variable ext : collaborators.




(** An exception of the per-file [try] becomes the [Failed] outcome of
    that file, with a line that names the file. *)
Lemma process_path_catches (opts : BlackRemove.options)
    (input_dir output_dir p t : path) (m : string) (w w1 : world) (e : exn) :
  is_file (files w) p = true ->
  media_type_of (Pathlib.lower (Pathlib.suffix p)) = Some m ->
  output_file_of input_dir output_dir p = Some t ->
  path_exists (files w) t = false ->
  BlackRemove.try_body ext opts m p t w = (Raise e, w1) ->
  BlackRemove.process_path ext opts input_dir output_dir p w =
    (Ok (Failed e),
     World (files w1)
       (trace w1 ++ [Print ([Lit "处理文件 "; Fpath p; Lit " 失败: "] ++ exn_msg e)])).
Proof.
  intros H1 H2 H3 H4 Hb. unfold BlackRemove.process_path. run_monad.
  rewrite H1, H2, H3, H4. simpl. now rewrite Hb.
Qed.

(** In [video_black_remove.py] an exception of the detector leaves the
    loop: the paths that follow are not processed. *)
Lemma video_only_exception_escapes (input_dir output_dir p t : path)
    (rest : list path) (w : world) (e : exn) :
  is_file (files w) p = true ->
  str_in (Pathlib.lower (Pathlib.suffix p)) video_extensions = true ->
  output_file_of input_dir output_dir p = Some t ->
  path_exists (files w) t = false ->
  video_remover_remove_black ext (files w) p = Raise e ->
  VideoBlackRemove.process_all ext input_dir output_dir (p :: rest) w =
    (Raise e, World (files w) (trace w ++ [ERemoveBlack VideoRemover p None])).
Proof.
  intros H1 H2 H3 H4 Hd.
  unfold VideoBlackRemove.process_all, VideoBlackRemove.process_path, remove_black.
  simpl. run_monad. rewrite H1, H2, H3, H4. simpl. now rewrite Hd.
Qed.




(** A body of [main] that raises is a fatal error. *)
Lemma main_frame_failure (argv : list string) (body : M string) (w w1 : world)
    (e : exn) :
  body w = (Raise e, w1) ->
  let rep := fst (main_frame ext argv body w) in
  document rep = JobResult false None None (Some (exn_msg e))
  /\ exit_code rep = 1.
Proof.
  intros Hb. unfold main_frame. rewrite Hb. simpl.
  destruct (write_result _ _ _ _) as [[u|e'] w2]; simpl; auto.
Qed.



End Boundary.

(** C1, at the input that breaks it. [video_black_remove.py] has no [try]
    in its loop: when the detector raises on [clips/bad.mp4] the exception
    leaves [batch_crop_videos], [main] reports it as the error of the run
    with [success] false and status 1, and [clips/b.mp4], which comes next
    in the walk, is never looked at. On the same tree [black_remove.py]
    records the failure for that file alone, goes on to crop [b.mp4] and
    ends with status 0. *)
Theorem video_only_failure_is_fatal :
  let argv := ["video_black_remove.py"; "config.json"; "result.json"] in
  let run := VideoBlackRemove.main sample argv failing_world in
  rglob (files failing_world) ["clips"] = [["clips"; "bad.mp4"]; ["clips"; "b.mp4"]]
  /\ exit_code (fst run) = 1
  /\ document (fst run) = JobResult false None None (Some [Lit "cannot open video"])
  /\ trace (snd run) =
       [EMkdir ["out"];
        ERemoveBlack VideoRemover ["clips"; "bad.mp4"] None;
        Print [Lit "处理失败: "; Lit "cannot open video"];
        EOpenWrite ["result.json"]]
  /\ fst (BlackRemove.batch_process_media sample (JStr "clips") (JStr "out")
            default_options failing_world) =
       Ok ("out",
           [(["clips"; "bad.mp4"], Failed (Exn RuntimeError [Lit "cannot open video"]));
            (["clips"; "b.mp4"], Cropped)])
  /\ exit_code (fst (BlackRemove.main sample argv failing_world)) = 0.
Proof. vm_compute. repeat split; reflexivity. Qed.

(* ===================================================================== *)
(** * The decision that a video has bars *)
(* ===================================================================== *)

Lemma video_has_black_false (x y w h original_w original_h : Z) :
  BlackRemove.video_has_black (x, y, w, h) original_w original_h = false
  <-> (w, h) = (original_w, original_h).
Proof.
  unfold BlackRemove.video_has_black. rewrite negb_false_iff, andb_true_iff.
  rewrite !Z.eqb_eq. split; [intros [-> ->]; reflexivity | intros [= -> ->]; auto].
Qed.

(** In [black_remove.py] the decision for a video compares the rectangle
    with the two values read from the file by [cv2.VideoCapture], and the
    detection leaves the file system alone. *)
Lemma detect_video_decision (ext : collaborators) (opts : BlackRemove.options)
    (p : path) (w w' : world) (r : rect) (has_black : bool) :
  BlackRemove.detect ext opts "video" p w = (Ok (r, has_black), w') ->
  exists original_w original_h,
    cv2_video_capture_get ext (files w) p CAP_PROP_FRAME_WIDTH = Ok original_w
    /\ cv2_video_capture_get ext (files w) p CAP_PROP_FRAME_HEIGHT = Ok original_h
    /\ has_black = BlackRemove.video_has_black r original_w original_h
    /\ files w' = files w.
Proof.
  unfold BlackRemove.detect, remove_black. run_monad.
  destruct (BlackRemove.get_remover _ _) as [rm|e]; [|discriminate].
  destruct (json_eq_str _ "static"); simpl;
    match goal with
    | |- context [match ?d with Ok _ => _ | Raise _ => _ end] =>
        destruct d as [r0|e]; [|discriminate]
    end; simpl;
    destruct (cv2_video_capture_get ext (files w) p CAP_PROP_FRAME_WIDTH)
      as [ow|e]; try discriminate; simpl;
    destruct (cv2_video_capture_get ext (files w) p CAP_PROP_FRAME_HEIGHT)
      as [oh|e]; try discriminate; simpl;
    intros [= <- <- <-]; exists ow, oh; auto.
Qed.

(** C2, at the input that breaks it. [video_black_remove.py] compares the
    width and the height of the rectangle with the size of the file in
    bytes, never with the frame: [clips/a/full.mp4] is 16 bytes long, its
    frame is 1920x800 and the detector returns the whole frame, yet the
    file is sent to ffmpeg instead of being copied. [black_remove.py],
    which compares with the probed frame, copies it. *)
Theorem video_only_compares_file_size :
  let p := ["clips"; "a"; "full.mp4"] in
  (forall x y w h size,
     VideoBlackRemove.no_black (x, y, w, h) size = true <-> w = size /\ h = size)
  /\ video_remover_remove_black sample (files sample_world) p = Ok (0, 0, 1920, 800)
  /\ cv2_video_capture_get sample (files sample_world) p CAP_PROP_FRAME_WIDTH = Ok 1920
  /\ cv2_video_capture_get sample (files sample_world) p CAP_PROP_FRAME_HEIGHT = Ok 800
  /\ st_size (files sample_world) p = Some 16
  /\ (let run := VideoBlackRemove.process_path sample ["clips"] ["out"] p sample_world in
      fst run = Ok Cropped
      /\ trace (snd run) =
           [ERemoveBlack VideoRemover p None;
            EMkdir ["out"; "a"];
            ESubprocessRun (Ffmpeg p 1920 800 0 0 ["out"; "a"; "full_noblack.mp4"]);
            Print [Lit "裁剪完成: "; Fpath p; Lit " -> ";
                   Fpath ["out"; "a"; "full_noblack.mp4"]]])
  /\ fst (BlackRemove.process_path sample default_options ["clips"] ["out"] p
            sample_world) = Ok Copied.
Proof.
  split.
  - intros x y w h size. unfold VideoBlackRemove.no_black.
    now rewrite andb_true_iff, !Z.eqb_eq.
  - vm_compute. repeat split; reflexivity.
Qed.

(* ===================================================================== *)
(** * Detection reads, and a bad rectangle fails the crop *)
(* ===================================================================== *)

Ltac destruct_match :=
  match goal with
  | |- context [match ?d with Ok _ => _ | Raise _ => _ end] => destruct d eqn:?
  | |- context [match ?d with Some _ => _ | None => _ end] => destruct d eqn:?
  | |- context [match ?d with Dir => _ | File _ => _ end] => destruct d eqn:?
  | |- context [if ?b then _ else _] => destruct b eqn:?
  end.

(** Strategy selection, detection and probing leave the file system as it
    is, and what they add to the trace are their own calls. *)
Lemma detect_reads (ext : collaborators) (opts : BlackRemove.options)
    (m : string) (p : path) (w : world) :
  let run := BlackRemove.detect ext opts m p w in
  files (snd run) = files w
  /\ exists evs, trace (snd run) = trace w ++ evs
                 /\ forallb is_detection evs = true.
Proof.
  unfold BlackRemove.detect, remove_black, start. run_monad.
  repeat (destruct_match; simpl); split; try reflexivity;
    rewrite <- ?app_assoc; simpl; eexists; (split; [reflexivity | reflexivity]).
Qed.

(** With cropping enabled, a file whose detected rectangle has a width or
    a height that is not positive, and which the comparison with the frame
    reports as having bars, ends as [Failed] with the [ValueError] of the
    crop function: the file system is as it was and nothing was written,
    copied or sent to ffmpeg or to the image writer. *)
Lemma crop_rejects_degenerate :
  forall (ext : collaborators) (opts : BlackRemove.options)
         (input_dir output_dir p t : path) (m : string) (w w1 : world) (r : rect),
    is_file (files w) p = true ->
    media_type_of (Pathlib.lower (Pathlib.suffix p)) = Some m ->
    output_file_of input_dir output_dir p = Some t ->
    path_exists (files w) t = false ->
    BlackRemove.detect ext opts m p w = (Ok (r, true), w1) ->
    degenerate m r = true ->
    truthy (BlackRemove.crop_enabled opts) = true ->
    exists evs,
      BlackRemove.process_path ext opts input_dir output_dir p w =
        (Ok (Failed (Exn ValueError [Lit "无效的裁剪参数: "; Frect r])),
         World (files w) (trace w ++ evs))
      /\ forallb (fun e => negb (is_write e)) evs = true.
Proof.
  intros ext opts input_dir output_dir p t m w w1 r H1 H2 H3 H4 Hd Hr Hc.
  pose proof (detect_reads ext opts m p w) as [Hf (evs & Ht & Hev)].
  rewrite Hd in Hf, Ht. simpl in Hf, Ht.
  exists (evs ++ [Print [Lit "处理文件 "; Fpath p; Lit " 失败: ";
                           Lit "无效的裁剪参数: "; Frect r]]).
  split.
  - unfold BlackRemove.process_path. run_monad. rewrite H1, H2, H3, H4. simpl.
    unfold BlackRemove.try_body. unfold bind at 1. rewrite Hd. simpl.
    unfold BlackRemove.copy_or_crop. rewrite Hc. simpl.
    destruct r as [[[a b] c] d]. unfold degenerate in Hr.
    destruct (String.eqb m "video").
    + unfold BlackRemove.crop_video. rewrite Hr. simpl.
      now rewrite Hf, Ht, <- app_assoc.
    + unfold BlackRemove.crop_image. rewrite Hr. simpl.
      now rewrite Hf, Ht, <- app_assoc.
  - rewrite forallb_app. simpl. rewrite andb_true_r.
    apply forallb_forall. intros e He.
    rewrite forallb_forall in Hev. specialize (Hev e He).
    destruct e; simpl in *; congruence.
Qed.

(** The copy branch does not look at the rectangle: with cropping
    disabled, or with a comparison that reports no bars, the file is
    copied whatever the detector returned. *)
Lemma copy_ignores_rectangle (ext : collaborators) (opts : BlackRemove.options)
    (input_dir output_dir p t : path) (m : string) (w w1 w2 w3 : world)
    (r : rect) (has_black : bool) :
  is_file (files w) p = true ->
  media_type_of (Pathlib.lower (Pathlib.suffix p)) = Some m ->
  output_file_of input_dir output_dir p = Some t ->
  path_exists (files w) t = false ->
  BlackRemove.detect ext opts m p w = (Ok (r, has_black), w1) ->
  truthy (BlackRemove.crop_enabled opts) && has_black = false ->
  mkdir_parents ext (Pathlib.parent t) w1 = (Ok tt, w2) ->
  copy2 ext p t w2 = (Ok tt, w3) ->
  BlackRemove.process_path ext opts input_dir output_dir p w =
    (Ok Copied,
     World (files w3)
       (trace w3 ++ [Print [Lit "无需裁剪，复制完成: "; Fpath p; Lit " -> "; Fpath t]])).
Proof.
  intros H1 H2 H3 H4 Hd Hc Hmk Hcp.
  unfold BlackRemove.process_path. run_monad. rewrite H1, H2, H3, H4. simpl.
  unfold BlackRemove.try_body. unfold bind at 1. rewrite Hd.
  cbn [fst snd]. unfold BlackRemove.copy_or_crop.
  replace (negb (truthy (BlackRemove.crop_enabled opts)) || negb has_black)
    with true
    by (destruct (truthy (BlackRemove.crop_enabled opts)), has_black;
        simpl in *; congruence).
  unfold bind at 1. rewrite Hmk. unfold bind at 1. rewrite Hcp. reflexivity.
Qed.

(** [video_black_remove.py] looks at the rectangle first: a width or a
    height that is not positive skips the video as damaged, before any
    copy or crop. *)
Lemma video_only_skips_degenerate (ext : collaborators)
    (input_dir output_dir p t : path) (x y cw ch : Z) (w : world) :
  is_file (files w) p = true ->
  str_in (Pathlib.lower (Pathlib.suffix p)) video_extensions = true ->
  output_file_of input_dir output_dir p = Some t ->
  path_exists (files w) t = false ->
  video_remover_remove_black ext (files w) p = Ok (x, y, cw, ch) ->
  degenerate "video" (x, y, cw, ch) = true ->
  VideoBlackRemove.process_path ext input_dir output_dir p w =
    (Ok SkippedDamaged,
     World (files w)
       (trace w ++ [ERemoveBlack VideoRemover p None;
                    Print [Lit "跳过损坏视频: "; Fpath p]])).
Proof.
  intros H1 H2 H3 H4 Hd Hr.
  unfold VideoBlackRemove.process_path, remove_black. run_monad.
  rewrite H1, H2, H3, H4. simpl. rewrite Hd. simpl.
  unfold degenerate in Hr. simpl in Hr. rewrite Hr. simpl.
  now rewrite <- app_assoc.
Qed.

(** C3, at the input that breaks it. [black_remove.py] looks at the
    rectangle only inside [crop_video] and [crop_image]: a rectangle whose
    width or height is not positive fails the file when it reaches one of
    them, but with cropping disabled, or when the comparison with the
    frame reports no bars, the file is copied to its target whatever the
    rectangle is. [clips/flat.mp4], for which the detector returns
    [(0, 0, 0, 0)], is copied when [crop_enabled] is false, and also with
    cropping enabled when the probe of a video that cannot be opened gives
    a frame of 0x0. [video_black_remove.py] tests the rectangle before
    anything else and writes nothing for the same file. *)
Theorem degenerate_rectangle_reaches_copy :
  let p := ["clips"; "flat.mp4"] in
  let t := ["out"; "flat_noblack.mp4"] in
  (forall (ext : collaborators) (opts : BlackRemove.options)
          (input_dir output_dir p t : path) (m : string) (w w1 w2 w3 : world)
          (r : rect) (has_black : bool),
     is_file (files w) p = true ->
     media_type_of (Pathlib.lower (Pathlib.suffix p)) = Some m ->
     output_file_of input_dir output_dir p = Some t ->
     path_exists (files w) t = false ->
     BlackRemove.detect ext opts m p w = (Ok (r, has_black), w1) ->
     degenerate m r = true ->
     (truthy (BlackRemove.crop_enabled opts) && has_black = false ->
      mkdir_parents ext (Pathlib.parent t) w1 = (Ok tt, w2) ->
      copy2 ext p t w2 = (Ok tt, w3) ->
      BlackRemove.process_path ext opts input_dir output_dir p w =
        (Ok Copied,
         World (files w3)
           (trace w3 ++
            [Print [Lit "无需裁剪，复制完成: "; Fpath p; Lit " -> "; Fpath t]])))
     /\ (truthy (BlackRemove.crop_enabled opts) && has_black = true ->
         exists evs,
           BlackRemove.process_path ext opts input_dir output_dir p w =
             (Ok (Failed (Exn ValueError [Lit "无效的裁剪参数: "; Frect r])),
              World (files w) (trace w ++ evs))
           /\ forallb (fun e => negb (is_write e)) evs = true))
  /\ (forall (ext : collaborators) (input_dir output_dir p t : path)
             (x y cw ch : Z) (w : world),
        is_file (files w) p = true ->
        str_in (Pathlib.lower (Pathlib.suffix p)) video_extensions = true ->
        output_file_of input_dir output_dir p = Some t ->
        path_exists (files w) t = false ->
        video_remover_remove_black ext (files w) p = Ok (x, y, cw, ch) ->
        degenerate "video" (x, y, cw, ch) = true ->
        VideoBlackRemove.process_path ext input_dir output_dir p w =
          (Ok SkippedDamaged,
           World (files w)
             (trace w ++ [ERemoveBlack VideoRemover p None;
                          Print [Lit "跳过损坏视频: "; Fpath p]])))
  /\ (video_remover_remove_black sample (files flat_world) p = Ok (0, 0, 0, 0)
      /\ degenerate "video" (0, 0, 0, 0) = true)
  /\ (let run := BlackRemove.batch_process_media sample (JStr "clips") (JStr "out")
                   no_crop_options flat_world in
      fst run = Ok ("out", [(p, Copied)])
      /\ files (snd run) !! t = Some (File "0123456789")
      /\ In (ECopy2 p t) (trace (snd run)))
  /\ (let run := BlackRemove.batch_process_media sample_unopened (JStr "clips")
                   (JStr "out") default_options flat_world in
      fst run = Ok ("out", [(p, Copied)])
      /\ files (snd run) !! t = Some (File "0123456789"))
  /\ (let run := VideoBlackRemove.batch_crop_videos sample (JStr "clips") (JStr "out")
                   flat_world in
      fst run = Ok ("out", [(p, SkippedDamaged)])
      /\ files (snd run) !! t = None).
Proof.
  intros p t. split; [|split].
  - intros ext opts input_dir output_dir p0 t0 m w w1 w2 w3 r has_black
      H1 H2 H3 H4 Hd Hr. split.
    + intros Hc Hmk Hcp.
      exact (copy_ignores_rectangle ext opts input_dir output_dir p0 t0 m w w1 w2 w3
               r has_black H1 H2 H3 H4 Hd Hc Hmk Hcp).
    + intros Hc. apply andb_prop in Hc as [Hc ->].
      exact (crop_rejects_degenerate ext opts input_dir output_dir p0 t0 m w w1 r
               H1 H2 H3 H4 Hd Hr Hc).
  - intros ext input_dir output_dir p0 t0 x y cw ch w H1 H2 H3 H4 Hd Hr.
    exact (video_only_skips_degenerate ext input_dir output_dir p0 t0 x y cw ch w
             H1 H2 H3 H4 Hd Hr).
  - vm_compute. repeat split; auto 10.
Qed.

(* ===================================================================== *)
(** * An unknown video algorithm *)
(* ===================================================================== *)


Section Appends.

Variable ext : collaborators.


















End Appends.




(* ===================================================================== *)
(** * An input root that is not there *)
(* ===================================================================== *)





(* ===================================================================== *)
(** * A failing crop tool *)
(* ===================================================================== *)


(* ===================================================================== *)
(** * What a run writes *)
(* ===================================================================== *)

Section Frame.

Variable ext : collaborators.
Variable output_dir : path.

Lemma grows_refl (f : fsys) : grows output_dir f f.
Proof. intros p. now left. Qed.

Lemma grows_trans (f g h : fsys) :
  grows output_dir f g -> grows output_dir g h -> grows output_dir f h.
Proof.
  intros H1 H2 p. destruct (H2 p) as [E2 | [N2 A2]].
  - rewrite E2. apply H1.
  - destruct (H1 p) as [E1 | [N1 A1]]; [|right; now split].
    right. split; [congruence | exact A2].
Qed.

Lemma grows_insert (f : fsys) (q : path) (n : node) :
  f !! q = None -> around output_dir q = true ->
  grows output_dir f (<[q := n]> f).
Proof.
  intros Hq Ha p. destruct (decide (q = p)) as [<- | Hne].
  - right. now split.
  - left. now apply lookup_insert_ne.
Qed.

Lemma node_at_None (f : fsys) (q : path) :
  node_at f q = None -> q <> [] /\ f !! q = None.
Proof. destruct q; [discriminate | intros H; split; [discriminate | exact H]]. Qed.

Lemma lookup_None_is_dir (f : fsys) (q : path) :
  q <> [] -> f !! q = None -> is_dir f q = false.
Proof.
  intros Hq Hn. unfold is_dir, node_at. destruct q; [congruence|]. now rewrite Hn.
Qed.

Lemma path_exists_false (f : fsys) (q : path) :
  path_exists f q = false -> q <> [] /\ f !! q = None.
Proof.
  unfold path_exists. destruct (node_at f q) eqn:E; [discriminate|].
  intros _. now apply node_at_None.
Qed.

Lemma around_below (s : path) : around output_dir (output_dir ++ s) = true.
Proof. unfold around. now rewrite relative_to_app. Qed.

Lemma around_above (n : nat) : around output_dir (take n output_dir) = true.
Proof.
  unfold around.
  pose proof (relative_to_app (take n output_dir) (drop n output_dir)) as E.
  rewrite take_drop in E. rewrite E.
  destruct (Pathlib.relative_to (take n output_dir) output_dir); reflexivity.
Qed.

Lemma around_prefix (s q : path) :
  In q (prefixes (output_dir ++ s)) -> around output_dir q = true.
Proof.
  unfold prefixes. intros H. apply in_map_iff in H as (n & <- & _).
  destruct (le_lt_dec n (length output_dir)) as [Hle | Hgt].
  - rewrite take_app_le by exact Hle. apply around_above.
  - rewrite take_app_ge by lia. apply around_below.
Qed.

Lemma prefixes_length (p q : path) :
  In q (prefixes p) -> (length q <= length p)%nat.
Proof.
  unfold prefixes. intros H. apply in_map_iff in H as (n & <- & _).
  rewrite length_take. lia.
Qed.

(** The shape of a target: below the output root, with a name at the end. *)
Lemma output_file_shape (input_dir p t : path) :
  output_file_of input_dir output_dir p = Some t ->
  exists s nm, t = output_dir ++ s ++ [nm] /\ Pathlib.parent t = output_dir ++ s.
Proof.
  unfold output_file_of, Pathlib.joinpath.
  destruct (Pathlib.relative_to p input_dir) as [rel|]; [|discriminate].
  intros [= <-]. eexists _, _. split; [now rewrite <- app_assoc|].
  unfold Pathlib.parent. now rewrite removelast_last.
Qed.

Lemma mkdir_chain_grows (qs : list path) :
  (forall q, In q qs -> around output_dir q = true) ->
  forall f f', mkdir_chain qs f = Ok f' ->
    grows output_dir f f'
    /\ (forall t, f !! t = None -> ~ In t qs -> f' !! t = None).
Proof.
  induction qs as [|q qs IH]; intros Ha f f' H; simpl in H.
  - injection H as <-. split; [apply grows_refl | auto].
  - assert (Ha' : forall q', In q' qs -> around output_dir q' = true)
      by (intros; apply Ha; now right).
    destruct (node_at f q) as [[|c]|] eqn:E; [| destruct qs; discriminate |].
    + destruct (IH Ha' f f' H) as [G N]. split; [exact G|].
      intros t Ht Hn. apply N; [exact Ht | intros Hin; apply Hn; now right].
    + apply node_at_None in E as [Hq E].
      destruct (IH Ha' _ f' H) as [G N]. split.
      * eapply grows_trans; [|exact G].
        apply grows_insert; [exact E | apply Ha; now left].
      * intros t Ht Hn. apply N.
        -- rewrite lookup_insert_ne; [exact Ht|]. intros ->. apply Hn. now left.
        -- intros Hin. apply Hn. now right.
Qed.

Lemma mkdir_parents_grows (p : path) (w : world) :
  (forall q, In q (prefixes p) -> around output_dir q = true) ->
  let w' := snd (mkdir_parents ext p w) in
  grows output_dir (files w) (files w')
  /\ (forall t, files w !! t = None -> ~ In t (prefixes p) -> files w' !! t = None).
Proof.
  intros Ha. unfold mkdir_parents. run_monad.
  destruct (io_fault ext (files w) (OpMkdir p)); simpl;
    [split; [apply grows_refl | auto]|].
  destruct (mkdir_chain (prefixes p) (files w)) as [f'|e] eqn:E; simpl;
    [|split; [apply grows_refl | auto]].
  exact (mkdir_chain_grows _ Ha _ _ E).
Qed.

Lemma os_makedirs_grows (p : path) (w : world) :
  (forall q, In q (prefixes p) -> around output_dir q = true) ->
  let w' := snd (os_makedirs ext p w) in
  grows output_dir (files w) (files w')
  /\ (forall t, files w !! t = None -> ~ In t (prefixes p) -> files w' !! t = None).
Proof.
  intros Ha. destruct p as [|c p].
  - simpl. split; [apply grows_refl | auto].
  - unfold os_makedirs. remember (c :: p) as q eqn:Hq. clear Hq. run_monad.
    destruct (io_fault ext (files w) (OpMkdir q)); simpl;
      [split; [apply grows_refl | auto]|].
    destruct (mkdir_chain (prefixes q) (files w)) as [f'|e] eqn:E; simpl;
      [|split; [apply grows_refl | auto]].
    exact (mkdir_chain_grows _ Ha _ _ E).
Qed.

Lemma copy2_grows (src dst : path) (w : world) :
  files w !! dst = None -> dst <> [] -> around output_dir dst = true ->
  grows output_dir (files w) (files (snd (copy2 ext src dst w))).
Proof.
  intros Hn Hd Ha. unfold copy2. run_monad.
  rewrite (lookup_None_is_dir _ _ Hd Hn).
  repeat (destruct_match; simpl); try apply grows_refl.
  now apply grows_insert.
Qed.

Lemma run_ffmpeg_grows (cmd : ffmpeg_command) (w : world) :
  files w !! ff_output cmd = None -> around output_dir (ff_output cmd) = true ->
  grows output_dir (files w) (files (snd (run_ffmpeg ext cmd w))).
Proof.
  intros Hn Ha. unfold run_ffmpeg. run_monad.
  destruct (subprocess_run ext (files w) cmd); simpl;
    [now apply grows_insert | apply grows_refl].
Qed.

Lemma imwrite_grows (dst : path) (img : image) (r : rect) (w : world) :
  files w !! dst = None -> around output_dir dst = true ->
  grows output_dir (files w) (files (snd (imwrite ext dst img r w))).
Proof.
  intros Hn Ha. unfold imwrite. run_monad.
  destruct (cv2_imwrite ext (files w) dst img r) as [[bytes|]|e]; simpl;
    [now apply grows_insert | apply grows_refl | apply grows_refl].
Qed.

(** Both versions of [crop_video] write at most the output file. *)
Lemma crop_video_grows (p t : path) (r : rect) (w : world) :
  files w !! t = None -> around output_dir t = true ->
  grows output_dir (files w) (files (snd (BlackRemove.crop_video ext p t r w)))
  /\ grows output_dir (files w)
       (files (snd (VideoBlackRemove.crop_video ext p t r w))).
Proof.
  intros Hn Ha. destruct r as [[[x y] cw] ch].
  unfold BlackRemove.crop_video, VideoBlackRemove.crop_video, run_ffmpeg.
  run_monad. split.
  - destruct ((cw <=? 0) || (ch <=? 0)); simpl; [apply grows_refl|].
    destruct (subprocess_run ext (files w) _) as [bytes|e]; simpl;
      [now apply grows_insert|].
    destruct (exn_class_of e); simpl; apply grows_refl.
  - destruct (subprocess_run ext (files w) _) as [bytes|e]; simpl;
      [now apply grows_insert|].
    destruct (exn_class_of e); simpl; apply grows_refl.
Qed.

End Frame.

#[global] Arguments mkdir_parents : simpl never.
#[global] Arguments os_makedirs : simpl never.
#[global] Arguments copy2 : simpl never.
#[global] Arguments run_ffmpeg : simpl never.
#[global] Arguments imwrite : simpl never.
#[global] Arguments remove_black : simpl never.
#[global] Arguments BlackRemove.crop_video : simpl never.
#[global] Arguments BlackRemove.crop_image : simpl never.
#[global] Arguments BlackRemove.detect : simpl never.
#[global] Arguments BlackRemove.copy_or_crop : simpl never.
#[global] Arguments BlackRemove.try_body : simpl never.
#[global] Arguments BlackRemove.process_path : simpl never.
#[global] Arguments VideoBlackRemove.crop_video : simpl never.
#[global] Arguments VideoBlackRemove.process_path : simpl never.
#[global] Arguments VideoBlackRemove.stat_size : simpl never.

Section FrameOfARun.

Variable ext : collaborators.
Variable output_dir : path.

Lemma fresh_target_intro (input_dir p t : path) (f : fsys) :
  output_file_of input_dir output_dir p = Some t ->
  path_exists f t = false ->
  fresh_target output_dir f t.
Proof.
  intros Ht He. apply path_exists_false in He as [Hne Hn].
  destruct (output_file_shape _ _ _ _ Ht) as (s & nm & -> & Hp).
  repeat split; try assumption.
  - apply around_below.
  - rewrite Hp. intros q Hq. eapply around_prefix, Hq.
  - rewrite Hp. intros Hin. apply prefixes_length in Hin.
    rewrite !length_app in Hin. simpl in Hin. lia.
Qed.

Lemma crop_image_grows (p t : path) (r : rect) (w : world) :
  fresh_target output_dir (files w) t ->
  grows output_dir (files w) (files (snd (BlackRemove.crop_image ext p t r w))).
Proof.
  intros (Hn & Hne & Ha & Hpre & Hnot). destruct r as [[[x1 y1] x2] y2].
  unfold BlackRemove.crop_image.
  destruct ((x2 - x1 <=? 0) || (y2 - y1 <=? 0)); [apply grows_refl|].
  unfold ask. run_monad.
  destruct (cv2_imread ext (files w) p) as [[img|]|e]; simpl;
    try apply grows_refl.
  set (w0 := World (files w) (trace w ++ [EImread p])).
  pose proof (os_makedirs_grows ext output_dir (Pathlib.parent t) w0 Hpre)
    as [G1 N1].
  destruct (os_makedirs ext (Pathlib.parent t) w0) as [[u|e] w1]; simpl in *;
    [|exact G1].
  pose proof (imwrite_grows ext output_dir t img (x1, y1, x2, y2) w1
                (N1 t Hn Hnot) Ha) as G2.
  destruct (imwrite ext t img (x1, y1, x2, y2) w1) as [[u2|e] w2]; simpl in *;
    eapply grows_trans; eauto.
Qed.

Lemma copy_or_crop_grows (opts : BlackRemove.options) (m : string) (p t : path)
    (r : rect) (has_black : bool) (w : world) :
  fresh_target output_dir (files w) t ->
  grows output_dir (files w)
    (files (snd (BlackRemove.copy_or_crop ext opts m p t r has_black w))).
Proof.
  intros Hfresh. pose proof Hfresh as (Hn & Hne & Ha & Hpre & Hnot).
  unfold BlackRemove.copy_or_crop.
  destruct (negb (truthy (BlackRemove.crop_enabled opts)) || negb has_black).
  - run_monad.
    pose proof (mkdir_parents_grows ext output_dir (Pathlib.parent t) w Hpre)
      as [G1 N1].
    destruct (mkdir_parents ext (Pathlib.parent t) w) as [[u|e] w1]; simpl in *;
      [|exact G1].
    pose proof (copy2_grows ext output_dir p t w1 (N1 t Hn Hnot) Hne Ha) as G2.
    destruct (copy2 ext p t w1) as [[u2|e] w2]; simpl in *;
      eapply grows_trans; eauto.
  - destruct (String.eqb m "video").
    + now apply crop_video_grows.
    + now apply crop_image_grows.
Qed.

Lemma try_body_grows (opts : BlackRemove.options) (m : string) (p t : path)
    (w : world) :
  fresh_target output_dir (files w) t ->
  grows output_dir (files w)
    (files (snd (BlackRemove.try_body ext opts m p t w))).
Proof.
  intros Hfresh. unfold BlackRemove.try_body, bind.
  pose proof (detect_reads ext opts m p w) as [Hf _].
  destruct (BlackRemove.detect ext opts m p w) as [[d|e] w1]; simpl in *.
  - rewrite <- Hf in *. now apply copy_or_crop_grows.
  - rewrite Hf. apply grows_refl.
Qed.

Lemma process_path_grows (opts : BlackRemove.options) (input_dir p : path)
    (w : world) :
  grows output_dir (files w)
    (files (snd (BlackRemove.process_path ext opts input_dir output_dir p w))).
Proof.
  unfold BlackRemove.process_path. run_monad.
  destruct (negb (is_file (files w) p)); simpl; [apply grows_refl|].
  destruct (media_type_of _) as [m|]; simpl; [|apply grows_refl].
  destruct (output_file_of input_dir output_dir p) as [t|] eqn:Ht; simpl;
    [|apply grows_refl].
  destruct (path_exists (files w) t) eqn:He; simpl; [apply grows_refl|].
  pose proof (try_body_grows opts m p t w (fresh_target_intro _ _ _ _ Ht He)) as G.
  destruct (BlackRemove.try_body ext opts m p t w) as [[o|e] w1]; simpl in *;
    exact G.
Qed.

Lemma remove_black_reads (r : remover) (p : path) (mf : option json) (w : world) :
  files (snd (remove_black ext r p mf w)) = files w.
Proof.
  unfold remove_black, ask. run_monad.
  repeat (destruct_match; simpl); reflexivity.
Qed.

Opaque remove_black.

Lemma process_path_video_grows (input_dir p : path) (w : world) :
  grows output_dir (files w)
    (files (snd (VideoBlackRemove.process_path ext input_dir output_dir p w))).
Proof.
  unfold VideoBlackRemove.process_path. run_monad.
  destruct (_ && is_file (files w) p); simpl; [|apply grows_refl].
  destruct (output_file_of input_dir output_dir p) as [t|] eqn:Ht; simpl;
    [|apply grows_refl].
  destruct (path_exists (files w) t) eqn:He; simpl; [apply grows_refl|].
  pose proof (fresh_target_intro _ _ _ _ Ht He) as (Hn & Hne & Ha & Hpre & Hnot).
  pose proof (remove_black_reads VideoRemover p None w) as Hf.
  destruct (remove_black ext VideoRemover p None w) as [[r|e] w1]; simpl in *;
    [|rewrite Hf; apply grows_refl].
  destruct r as [[[x y] cw] ch].
  destruct ((cw <=? 0) || (ch <=? 0)); simpl; [rewrite Hf; apply grows_refl|].
  unfold VideoBlackRemove.stat_size. run_monad.
  destruct (st_size (files w1) p) as [size|]; simpl;
    [|rewrite Hf; apply grows_refl].
  rewrite <- Hf in *.
  pose proof (mkdir_parents_grows ext output_dir (Pathlib.parent t) w1 Hpre)
    as [G1 N1].
  destruct ((cw =? size) && (ch =? size)).
  - destruct (mkdir_parents ext (Pathlib.parent t) w1) as [[u|e] w2]; simpl in *;
      [|exact G1].
    pose proof (copy2_grows ext output_dir p t w2 (N1 t Hn Hnot) Hne Ha) as G2.
    destruct (copy2 ext p t w2) as [[u2|e] w3]; simpl in *;
      eapply grows_trans; eauto.
  - destruct (mkdir_parents ext (Pathlib.parent t) w1) as [[u|e] w2]; simpl in *;
      [|exact G1].
    eapply grows_trans; [exact G1|].
    apply (crop_video_grows ext output_dir p t (x, y, cw, ch) w2 (N1 t Hn Hnot) Ha).
Qed.

Transparent remove_black.

Lemma for_each_grows {A B} (body : A -> M B) :
  (forall a w, grows output_dir (files w) (files (snd (body a w)))) ->
  forall (l : list A) (w : world),
    grows output_dir (files w) (files (snd (for_each body l w))).
Proof.
  intros Hbody l. induction l as [|a l IH]; intros w; simpl.
  - apply grows_refl.
  - unfold bind, ret. specialize (Hbody a w).
    destruct (body a w) as [[b|e] w1]; simpl in *; [|exact Hbody].
    specialize (IH w1).
    destruct (for_each body l w1) as [[bs|e] w2]; simpl in *;
      eapply grows_trans; eauto.
Qed.

Lemma around_root_prefix (q : path) :
  In q (prefixes output_dir) -> around output_dir q = true.
Proof.
  intros H. apply (around_prefix output_dir []). now rewrite app_nil_r.
Qed.

Lemma batch_process_media_grows (inp out : json) (opts : BlackRemove.options)
    (w : world) :
  Path out = Ok output_dir ->
  grows output_dir (files w)
    (files (snd (BlackRemove.batch_process_media ext inp out opts w))).
Proof.
  intros Hout. unfold BlackRemove.batch_process_media, BlackRemove.process_all.
  unfold bind at 1. unfold lift at 1.
  destruct (Path inp) as [input_dir|e]; [|apply grows_refl].
  unfold bind at 1. unfold lift at 1. rewrite Hout.
  unfold bind at 1.
  pose proof (mkdir_parents_grows ext output_dir output_dir w around_root_prefix)
    as [G1 _].
  destruct (mkdir_parents ext output_dir w) as [[u|e] w1]; simpl in *; [|exact G1].
  unfold bind at 1. unfold get_files at 1. unfold bind, ret.
  pose proof (for_each_grows _ (process_path_grows opts input_dir)
                (rglob (files w1) input_dir) w1) as G2.
  destruct (for_each _ _ w1) as [[outs|e] w2]; simpl in *;
    eapply grows_trans; eauto.
Qed.

Lemma batch_crop_videos_grows (inp out : json) (w : world) :
  Path out = Ok output_dir ->
  grows output_dir (files w)
    (files (snd (VideoBlackRemove.batch_crop_videos ext inp out w))).
Proof.
  intros Hout. unfold VideoBlackRemove.batch_crop_videos, VideoBlackRemove.process_all.
  unfold bind at 1. unfold lift at 1.
  destruct (Path inp) as [input_dir|e]; [|apply grows_refl].
  unfold bind at 1. unfold lift at 1. rewrite Hout.
  unfold bind at 1.
  pose proof (mkdir_parents_grows ext output_dir output_dir w around_root_prefix)
    as [G1 _].
  destruct (mkdir_parents ext output_dir w) as [[u|e] w1]; simpl in *; [|exact G1].
  unfold bind at 1. unfold get_files at 1. unfold bind, ret.
  pose proof (for_each_grows _ (process_path_video_grows input_dir)
                (rglob (files w1) input_dir) w1) as G2.
  destruct (for_each _ _ w1) as [[outs|e] w2]; simpl in *;
    eapply grows_trans; eauto.
Qed.

End FrameOfARun.

Lemma common_prefix_comparable (a b x y : path) :
  a ++ x = b ++ y ->
  Pathlib.relative_to a b <> None \/ Pathlib.relative_to b a <> None.
Proof.
  revert b. induction a as [|c a IH]; intros b H.
  - right. destruct b; discriminate.
  - destruct b as [|d b]; [left; discriminate|].
    simpl in H. injection H as -> H. simpl. rewrite String.eqb_refl.
    now apply IH.
Qed.

Lemma apart_not_around (input_dir output_dir p rel : path) :
  apart input_dir output_dir = true ->
  Pathlib.relative_to p input_dir = Some rel ->
  around output_dir p = false.
Proof.
  unfold apart, around. intros Hap Hrel. apply relative_to_Some in Hrel as ->.
  destruct (Pathlib.relative_to input_dir output_dir) eqn:E1; [discriminate|].
  destruct (Pathlib.relative_to output_dir input_dir) eqn:E2; [discriminate|].
  destruct (Pathlib.relative_to (input_dir ++ rel) output_dir) as [s|] eqn:E3.
  - apply relative_to_Some in E3.
    destruct (common_prefix_comparable _ _ _ _ E3); congruence.
  - destruct (Pathlib.relative_to output_dir (input_dir ++ rel)) as [s|] eqn:E4;
      [|reflexivity].
    apply relative_to_Some in E4. rewrite <- app_assoc in E4.
    rewrite E4, relative_to_app in E2. discriminate.
Qed.

Lemma separate_apart (a b : path) : separate a b = true -> apart a b = true.
Proof. unfold separate. intros H. now apply andb_prop in H as [_ H]. Qed.

Lemma grows_frame (input_dir output_dir : path) (f f1 f2 : fsys) :
  grows output_dir f f1 -> grows output_dir f f2 ->
  write_frame input_dir output_dir f f1 f2.
Proof.
  intros G1 G2. split; [|split].
  - intros p n Hp. split.
    + destruct (G1 p) as [E | [N _]]; congruence.
    + destruct (G2 p) as [E | [N _]]; congruence.
  - intros p Hp [H | H].
    + destruct (G1 p) as [E | [_ A]]; [congruence | exact A].
    + destruct (G2 p) as [E | [_ A]]; [congruence | exact A].
  - intros Hsep p rel Hrel. apply separate_apart in Hsep as Hap.
    pose proof (apart_not_around _ _ _ _ Hap Hrel) as Hna. split.
    + destruct (G1 p) as [E | [_ A]]; [exact E | congruence].
    + destruct (G2 p) as [E | [_ A]]; [exact E | congruence].
Qed.

(** C10, as the code has it. In any run of either batch function, whatever
    the collaborators do and whether or not the loop is left by an
    exception: every node that was in the file system is still there
    unchanged, so no existing file is overwritten or deleted; every path
    that is new is the output root, one of its ancestors, or below the
    output root; and when neither root is the other or inside it, nothing
    at or below the input root has changed. That the roots are separate
    is read off their parts, for roots written without [..] that are both
    absolute or both relative; the code itself never compares them. *)
Theorem writes_stay_around_output_root :
  forall (ext : collaborators) (inp out : json) (opts : BlackRemove.options)
         (input_dir output_dir : path) (w : world),
    Path inp = Ok input_dir ->
    Path out = Ok output_dir ->
    write_frame input_dir output_dir (files w)
      (files (snd (BlackRemove.batch_process_media ext inp out opts w)))
      (files (snd (VideoBlackRemove.batch_crop_videos ext inp out w))).
Proof.
  intros ext inp out opts input_dir output_dir w Hin Hout.
  apply grows_frame.
  - now apply batch_process_media_grows.
  - now apply batch_crop_videos_grows.
Qed.

Lemma writes_stay_around_output_root_witness :
  let w1 := snd (BlackRemove.batch_process_media sample (JStr "clips") (JStr "out")
                   default_options sample_world) in
  separate ["clips"] ["out"] = true
  /\ files w1 !! ["out"; "top_noblack.mp4"] = Some (File "cropped video")
  /\ files w1 !! ["clips"; "top.mp4"] = files sample_world !! ["clips"; "top.mp4"].
Proof.
  intros w1.
  pose proof (writes_stay_around_output_root sample (JStr "clips") (JStr "out")
                default_options ["clips"] ["out"] sample_world eq_refl eq_refl)
    as (_ & _ & H).
  split; [reflexivity|]. split; [vm_compute; reflexivity|].
  exact (proj1 (H eq_refl ["clips"; "top.mp4"] ["top.mp4"] eq_refl)).
Defined.

(** C10 as stated fails: nothing keeps the output root away from the input
    root. With the output root [clips/out] the run writes
    [clips/out/top_noblack.mp4], a new file below the input root [clips]. *)
Lemma output_inside_input_is_written :
  let w1 := snd (BlackRemove.batch_process_media sample (JStr "clips")
                   (JStr "clips/out") default_options sample_world) in
  let t := ["clips"; "out"; "top_noblack.mp4"] in
  strictly_under ["clips"] t = true
  /\ files sample_world !! t = None
  /\ files w1 !! t = Some (File "cropped video")
  /\ files w1 !! ["clips"; "out"] = Some Dir.
Proof. vm_compute. repeat split; reflexivity. Qed.

(* ===================================================================== *)
(** * Classification and naming, further *)
(* ===================================================================== *)

Section Classification.


Lemma lower_ascii_idem (c : ascii) :
  Pathlib.lower_ascii (Pathlib.lower_ascii c) = Pathlib.lower_ascii c.
Proof. destruct c as [[] [] [] [] [] [] [] []]; reflexivity. Qed.

Lemma lower_cons (c : ascii) (s : string) :
  Pathlib.lower (String c s) = String (Pathlib.lower_ascii c) (Pathlib.lower s).
Proof. reflexivity. Qed.

Lemma lower_idem (s : string) : Pathlib.lower (Pathlib.lower s) = Pathlib.lower s.
Proof.
  induction s as [|c s IH]; [reflexivity|].
  now rewrite !lower_cons, lower_ascii_idem, IH.
Qed.






End Classification.



Section Targets.

Lemma append_inv_r (a b c : string) : a +:+ c = b +:+ c -> a = b.
Proof.
  revert b. induction a as [|x a IH]; intros b H.
  - destruct b as [|y b]; [reflexivity|].
    apply (f_equal String.length) in H.
    rewrite append_nil, append_cons in H. simpl in H.
    rewrite length_append in H. lia.
  - destruct b as [|y b].
    + apply (f_equal String.length) in H.
      rewrite append_nil, append_cons in H. simpl in H.
      rewrite length_append in H. lia.
    + rewrite !append_cons in H. injection H as -> H. f_equal. now apply IH.
Qed.

Lemma supported_has_suffix (name m : string) :
  media_type_of (Pathlib.lower (Pathlib.suffix_of name)) = Some m ->
  Pathlib.suffix_of name <> "".
Proof. intros H E. rewrite E in H. discriminate. Qed.

Lemma noblack_name_parts (name : string) :
  Pathlib.suffix_of name <> "" ->
  Pathlib.suffix_of (noblack_name name) = Pathlib.suffix_of name
  /\ Pathlib.stem_of (noblack_name name) = Pathlib.stem_of name +:+ "_noblack".
Proof.
  intros H. destruct (renamed_suffix name) as [E | E]; [contradiction | exact E].
Qed.

Lemma noblack_name_inj (a b : string) :
  Pathlib.suffix_of a <> "" -> Pathlib.suffix_of b <> "" ->
  noblack_name a = noblack_name b -> a = b.
Proof.
  intros Ha Hb E.
  destruct (noblack_name_parts a Ha) as [Sa Ta].
  destruct (noblack_name_parts b Hb) as [Sb Tb].
  rewrite E in Sa, Ta. rewrite Sb in Sa. rewrite Tb in Ta.
  apply append_inv_r in Ta.
  rewrite <- (stem_suffix a), <- (stem_suffix b). congruence.
Qed.

Lemma noblack_name_longer (name : string) :
  String.length (noblack_name name) = (String.length name + 8)%nat.
Proof.
  unfold noblack_name. rewrite <- (stem_suffix name) at 3.
  rewrite !length_append. simpl. lia.
Qed.

(** A path of the walk and its target, part by part. *)
Lemma output_file_parts (input_dir output_dir p t : path) :
  strictly_under input_dir p = true ->
  output_file_of input_dir output_dir p = Some t ->
  exists rel,
    p = input_dir ++ Pathlib.parent rel ++ [Pathlib.name p]
    /\ Pathlib.relative_to p input_dir = Some rel
    /\ t = output_dir ++ Pathlib.parent rel ++ [noblack_name (Pathlib.name p)].
Proof.
  unfold strictly_under, output_file_of, Pathlib.joinpath.
  destruct (Pathlib.relative_to p input_dir) as [rel|] eqn:E; [|discriminate].
  destruct rel as [|c rel]; [discriminate|]. intros _ [= <-].
  apply relative_to_Some in E. subst p.
  assert (Hn : Pathlib.name (input_dir ++ c :: rel) = Pathlib.name (c :: rel)).
  { unfold Pathlib.name.
    rewrite (app_removelast_last "" (l := c :: rel)) at 1 by discriminate.
    now rewrite app_assoc, last_last. }
  exists (c :: rel). split; [|split].
  - rewrite Hn. unfold Pathlib.parent, Pathlib.name.
    now rewrite <- app_removelast_last by discriminate.
  - reflexivity.
  - rewrite Hn. unfold noblack_name, Pathlib.stem, Pathlib.suffix.
    now rewrite <- app_assoc.
Qed.

End Targets.

(** X2. The target of a supported file is a supported file of the same
    type, with the same suffix, and it is never the file itself: a run
    cannot be asked to write over the file it reads, and what it writes
    would be taken as input by a walk that reaches it. *)
Theorem target_keeps_media_type :
  forall (input_dir output_dir p t : path) (m : string),
    strictly_under input_dir p = true ->
    output_file_of input_dir output_dir p = Some t ->
    media_type_of (Pathlib.lower (Pathlib.suffix p)) = Some m ->
    media_type_of (Pathlib.lower (Pathlib.suffix t)) = Some m
    /\ Pathlib.suffix t = Pathlib.suffix p
    /\ Pathlib.name t = noblack_name (Pathlib.name p)
    /\ t <> p.
Proof.
  intros input_dir output_dir p t m Hu Ht Hm.
  destruct (output_file_parts _ _ _ _ Hu Ht) as (rel & Hp & _ & Htt).
  assert (Hname : Pathlib.name t = noblack_name (Pathlib.name p)).
  { rewrite Htt. unfold Pathlib.name at 1. now rewrite !app_assoc, last_last. }
  assert (Hs : Pathlib.suffix t = Pathlib.suffix p).
  { unfold Pathlib.suffix. rewrite Hname.
    apply noblack_name_parts. eapply supported_has_suffix, Hm. }
  repeat split.
  - now rewrite Hs.
  - exact Hs.
  - exact Hname.
  - intros E. rewrite E in Hname.
    apply (f_equal String.length) in Hname.
    rewrite noblack_name_longer in Hname. lia.
Qed.

Lemma target_keeps_media_type_witness :
  media_type_of (Pathlib.lower (Pathlib.suffix ["clips"; "a"; "b_noblack.MP4"]))
    = Some "video"
  /\ ["clips"; "a"; "b_noblack.MP4"] <> ["clips"; "a"; "b.MP4"].
Proof.
  pose proof (target_keeps_media_type ["clips"] ["clips"] ["clips"; "a"; "b.MP4"]
                ["clips"; "a"; "b_noblack.MP4"] "video" eq_refl eq_refl eq_refl)
    as (H1 & _ & _ & H2).
  split; [exact H1 | exact H2].
Defined.

(** X3. Two different files of the walk that have a suffix never get the
    same target: no output of a run is written for two inputs. *)
Theorem distinct_files_distinct_targets :
  forall (input_dir output_dir p q t u : path),
    strictly_under input_dir p = true ->
    strictly_under input_dir q = true ->
    Pathlib.suffix p <> "" ->
    Pathlib.suffix q <> "" ->
    output_file_of input_dir output_dir p = Some t ->
    output_file_of input_dir output_dir q = Some u ->
    p <> q ->
    t <> u.
Proof.
  intros input_dir output_dir p q t u Hp Hq Sp Sq Ht Hu Hne E. subst u.
  destruct (output_file_parts _ _ _ _ Hp Ht) as (rp & Ep & _ & Tp).
  destruct (output_file_parts _ _ _ _ Hq Hu) as (rq & Eq & _ & Tq).
  rewrite Tp in Tq. apply app_inv_head in Tq.
  apply app_inj_tail in Tq as [Hpar Hname].
  apply noblack_name_inj in Hname; [|exact Sp | exact Sq].
  apply Hne. rewrite Ep, Eq. now rewrite Hpar, Hname.
Qed.

Lemma distinct_files_distinct_targets_witness :
  output_file_of ["clips"] ["out"] ["clips"; "a.mp4"] = Some ["out"; "a_noblack.mp4"]
  /\ ["out"; "a_noblack.mp4"] <> ["out"; "a_noblack.MP4"].
Proof.
  split; [reflexivity|].
  apply (distinct_files_distinct_targets ["clips"] ["out"]
           ["clips"; "a.mp4"] ["clips"; "a.MP4"]);
    try reflexivity; discriminate.
Defined.

(* ===================================================================== *)
(** * Errors before the loop *)
(* ===================================================================== *)

(** X4. With the wrong number of command-line arguments both entry points
    end with status 1 and the usage text as the error, and nothing else
    happens: the file system is as it was and no result document is
    written, since the name of the document was never read. *)
Theorem wrong_argument_count :
  forall (ext : collaborators) (argv : list string) (w : world),
    length argv <> 3%nat ->
    (exists lines,
       BlackRemove.main ext argv w =
         (ExitReport 1
            (JobResult false None None
               (Some [Lit "用法: python black_remove.py <input_file> <output_file>"]))
            false,
          World (files w) (trace w ++ map Print lines)))
    /\ (exists lines,
          VideoBlackRemove.main ext argv w =
            (ExitReport 1
               (JobResult false None None
                  (Some [Lit "用法: python video_black_remover.py <input_file> <output_file>"]))
               false,
             World (files w) (trace w ++ map Print lines))).
Proof.
  intros ext argv w H. apply Nat.eqb_neq in H.
  unfold BlackRemove.main, VideoBlackRemove.main, main_frame,
    BlackRemove.main_body, VideoBlackRemove.main_body, write_result.
  rewrite H. run_monad.
  split; eexists [_; _]; simpl; rewrite <- app_assoc; reflexivity.
Qed.

Lemma wrong_argument_count_witness :
  exit_code (fst (BlackRemove.main sample ["black_remove.py"; "config.json"]
                    sample_world)) = 1
  /\ files (snd (BlackRemove.main sample ["black_remove.py"; "config.json"]
                   sample_world)) = files sample_world.
Proof.
  destruct (wrong_argument_count sample ["black_remove.py"; "config.json"]
              sample_world) as [[lines E] _]; [discriminate|].
  rewrite E. split; reflexivity.
Defined.

Section ConfigErrors.

Variable ext : collaborators.

Lemma batch_process_media_bad_root (inp out : json) (opts : BlackRemove.options)
    (w : world) (e : exn) :
  match Path inp with
  | Raise e' => e' = e
  | Ok _ => Path out = Raise e
  end ->
  BlackRemove.batch_process_media ext inp out opts w = (Raise e, w).
Proof.
  unfold BlackRemove.batch_process_media, bind, lift.
  destruct (Path inp); [intros -> | intros ->]; reflexivity.
Qed.

Lemma batch_crop_videos_bad_root (inp out : json) (w : world) (e : exn) :
  match Path inp with
  | Raise e' => e' = e
  | Ok _ => Path out = Raise e
  end ->
  VideoBlackRemove.batch_crop_videos ext inp out w = (Raise e, w).
Proof.
  unfold VideoBlackRemove.batch_crop_videos, bind, lift.
  destruct (Path inp); [intros -> | intros ->]; reflexivity.
Qed.

Lemma main_body_config_error (prog config_file result_file bytes : string)
    (w : world) (e : exn) :
  node_at (files w) (Pathlib.of_string config_file) = Some (File bytes) ->
  config_error (json_load ext bytes) = Some e ->
  BlackRemove.main_body ext [prog; config_file; result_file] w = (Raise e, w).
Proof.
  intros Hnode He. unfold BlackRemove.main_body, load_config.
  run_monad. unfold path_exists. rewrite Hnode. simpl. rewrite Hnode.
  unfold config_error in He.
  destruct (json_load ext bytes) as [data|e0]; simpl;
    [|injection He as ->; now destruct w].
  destruct (BlackRemove.read_config data) as [cfg|e0]; simpl;
    [|injection He as ->; now destruct w].
  rewrite (batch_process_media_bad_root _ _ _ _ e).
  - now destruct w.
  - destruct (Path cfg.1.1); [|congruence].
    destruct (Path cfg.1.2); [discriminate | congruence].
Qed.

Lemma video_main_body_config_error (prog config_file result_file bytes : string)
    (w : world) (e : exn) :
  node_at (files w) (Pathlib.of_string config_file) = Some (File bytes) ->
  video_config_error (json_load ext bytes) = Some e ->
  VideoBlackRemove.main_body ext [prog; config_file; result_file] w = (Raise e, w).
Proof.
  intros Hnode He. unfold VideoBlackRemove.main_body, load_config.
  run_monad. unfold path_exists. rewrite Hnode. simpl. rewrite Hnode.
  unfold video_config_error in He.
  destruct (json_load ext bytes) as [data|e0]; simpl;
    [|injection He as ->; now destruct w].
  destruct (VideoBlackRemove.read_config data) as [cfg|e0]; simpl;
    [|injection He as ->; now destruct w].
  rewrite (batch_crop_videos_bad_root _ _ _ e).
  - now destruct w.
  - destruct (Path cfg.1); [|congruence].
    destruct (Path cfg.2); [discriminate | congruence].
Qed.

End ConfigErrors.

(** X5. A configuration that cannot be used is fatal before anything is
    written: when [json.load] fails, a key of the configuration cannot be
    looked up, or one of the two roots is refused, the body of [main]
    raises with the file system and the output untouched (the output root
    is not created), and the run ends with that error, [success] false and
    status 1; this holds for each file by what that file refuses. A
    configuration without ["params"] fails with the [KeyError] of that key
    in both files; one without the input root fails in [black_remove.py]
    with the [TypeError] of [Path(None)] and in [video_black_remove.py]
    with the [AttributeError] of [None.get]; an input root that is the
    empty string is refused by [video_black_remove.py] alone, with its own
    [KeyError]. *)
Theorem unusable_configuration_is_fatal :
  forall (ext : collaborators) (prog config_file result_file bytes : string)
         (w : world),
    node_at (files w) (Pathlib.of_string config_file) = Some (File bytes) ->
    let argv := [prog; config_file; result_file] in
    (forall e,
       config_error (json_load ext bytes) = Some e ->
       BlackRemove.main_body ext argv w = (Raise e, w)
       /\ let rep := fst (BlackRemove.main ext argv w) in
          document rep = JobResult false None None (Some (exn_msg e))
          /\ exit_code rep = 1)
    /\ (forall ev,
          video_config_error (json_load ext bytes) = Some ev ->
          VideoBlackRemove.main_body ext argv w = (Raise ev, w)
          /\ let rep := fst (VideoBlackRemove.main ext argv w) in
             document rep = JobResult false None None (Some (exn_msg ev))
             /\ exit_code rep = 1)
    /\ (forall kv, assoc "params" kv = None ->
          config_error (Ok (JDict kv)) = Some (Exn KeyError [Frepr "params"])
          /\ video_config_error (Ok (JDict kv)) = Some (Exn KeyError [Frepr "params"]))
    /\ (forall kv ps, assoc "params" kv = Some (JDict ps) ->
          assoc "video_path" ps = None ->
          (exists c, assoc "config" kv = Some (JDict c)) ->
          config_error (Ok (JDict kv)) =
            Some (Exn TypeError
                    [Lit "expected str, bytes or os.PathLike object, not NoneType"])
          /\ video_config_error (Ok (JDict kv)) =
               Some (Exn AttributeError
                       [Lit "'NoneType' object has no attribute 'get'"]))
    /\ (forall kv ps vp c, assoc "params" kv = Some (JDict ps) ->
          assoc "video_path" ps = Some (JDict vp) ->
          assoc "video_path" vp = Some (JStr "") ->
          assoc "config" kv = Some (JDict c) ->
          assoc "output_path" c = None ->
          config_error (Ok (JDict kv)) = None
          /\ video_config_error (Ok (JDict kv)) =
               Some (Exn KeyError [Frepr "输入JSON缺少'video_path'参数"])).
Proof.
  intros ext prog config_file result_file bytes w Hnode argv.
  split; [|split; [|split; [|split]]].
  - intros e He.
    pose proof (main_body_config_error ext prog config_file result_file bytes w e
                  Hnode He) as Hb.
    split; [exact Hb|]. exact (main_frame_failure ext _ _ w w e Hb).
  - intros ev Hev.
    pose proof (video_main_body_config_error ext prog config_file result_file bytes
                  w ev Hnode Hev) as Hvb.
    split; [exact Hvb|]. exact (main_frame_failure ext _ _ w w ev Hvb).
  - intros kv Hk. unfold config_error, video_config_error,
      BlackRemove.read_config, VideoBlackRemove.read_config, py_getitem.
    rewrite Hk. now split.
  - intros kv ps Hk Hv [c Hc].
    unfold config_error, video_config_error,
      BlackRemove.read_config, VideoBlackRemove.read_config, py_getitem, py_get.
    rewrite Hk. simpl. rewrite Hv. simpl. rewrite Hc. simpl.
    split; [|reflexivity].
    repeat (destruct (assoc _ c); simpl); reflexivity.
  - intros kv ps vp c Hk Hv Hvp Hc Ho.
    unfold config_error, video_config_error,
      BlackRemove.read_config, VideoBlackRemove.read_config, py_getitem, py_get.
    rewrite Hk. simpl. rewrite Hv. simpl. rewrite Hvp. simpl. rewrite Hc. simpl.
    rewrite Ho. simpl. split; [|reflexivity].
    repeat (destruct (assoc _ c); simpl); reflexivity.
Qed.

Lemma unusable_configuration_is_fatal_witness :
  let no_root := sample_reading (JDict [("params", JDict []); ("config", JDict [])]) in
  let empty_root :=
    sample_reading
      (JDict [("params", JDict [("video_path", JDict [("video_path", JStr "")])]);
              ("config", JDict [])]) in
  let run := BlackRemove.main no_root ["black_remove.py"; "config.json"; "result.json"]
               sample_world in
  let vrun := VideoBlackRemove.main empty_root
                ["video_black_remove.py"; "config.json"; "result.json"] sample_world in
  (document (fst run) =
     JobResult false None None
       (Some [Lit "expected str, bytes or os.PathLike object, not NoneType"])
   /\ exit_code (fst run) = 1)
  /\ (document (fst vrun) =
        JobResult false None None (Some [Frepr "输入JSON缺少'video_path'参数"])
      /\ exit_code (fst vrun) = 1).
Proof.
  intros no_root empty_root run vrun. split.
  - pose proof (unusable_configuration_is_fatal no_root
                  "black_remove.py" "config.json" "result.json" "config for clips"
                  sample_world eq_refl) as (H & _).
    exact (proj2 (H (Exn TypeError
                       [Lit "expected str, bytes or os.PathLike object, not NoneType"])
                    eq_refl)).
  - pose proof (unusable_configuration_is_fatal empty_root
                  "video_black_remove.py" "config.json" "result.json"
                  "config for clips" sample_world eq_refl) as (_ & H & _).
    exact (proj2 (H (Exn KeyError [Frepr "输入JSON缺少'video_path'参数"]) eq_refl)).
Defined.

(* ===================================================================== *)
(** * The per-file boundary of black_remove.py *)
(* ===================================================================== *)



(** X7. Detection comes before the decision to copy: when strategy
    selection, detection or the probe of the native size raises, the file
    ends as [Failed] and is not copied, with cropping disabled as well as
    enabled; nothing is written and the calls made are those of the
    detection. In particular an image that [cv2.imread] cannot decode fails
    with the [AttributeError] of [None.shape]. *)
Theorem detection_failure_never_copies :
  forall (ext : collaborators) (opts : BlackRemove.options)
         (input_dir output_dir p t : path) (m : string) (w w1 : world) (e : exn),
    is_file (files w) p = true ->
    media_type_of (Pathlib.lower (Pathlib.suffix p)) = Some m ->
    output_file_of input_dir output_dir p = Some t ->
    path_exists (files w) t = false ->
    BlackRemove.detect ext opts m p w = (Raise e, w1) ->
    (exists evs,
       BlackRemove.process_path ext opts input_dir output_dir p w =
         (Ok (Failed e),
          World (files w)
            (trace w ++ evs ++
             [Print ([Lit "处理文件 "; Fpath p; Lit " 失败: "] ++ exn_msg e)]))
       /\ forallb is_detection evs = true)
    /\ (forall r, black_remover_start ext (files w) p = Ok r ->
                  cv2_imread ext (files w) p = Ok None ->
                  fst (BlackRemove.detect ext opts "image" p w) =
                    Raise (Exn AttributeError
                             [Lit "'NoneType' object has no attribute 'shape'"])).
Proof.
  intros ext opts input_dir output_dir p t m w w1 e H1 H2 H3 H4 Hd.
  split.
  - pose proof (detect_reads ext opts m p w) as [Hf (evs & Ht & Hev)].
    rewrite Hd in Hf, Ht. simpl in Hf, Ht.
    exists evs. split; [|exact Hev].
    assert (Hb : BlackRemove.try_body ext opts m p t w = (Raise e, w1)).
    { unfold BlackRemove.try_body, bind. now rewrite Hd. }
    rewrite (process_path_catches ext opts input_dir output_dir p t m w w1 e
               H1 H2 H3 H4 Hb).
    now rewrite Hf, Ht, <- app_assoc.
  - intros r Hs Hi. unfold BlackRemove.detect, start, ask. run_monad.
    now rewrite Hs, Hi.
Qed.

Lemma detection_failure_never_copies_witness :
  let p := ["clips"; "bad.mp4"] in
  exists evs,
    BlackRemove.process_path sample no_crop_options ["clips"] ["out"] p failing_world =
      (Ok (Failed (Exn RuntimeError [Lit "cannot open video"])),
       World (files failing_world)
         (trace failing_world ++ evs ++
          [Print [Lit "处理文件 "; Fpath p; Lit " 失败: "; Lit "cannot open video"]]))
    /\ forallb is_detection evs = true.
Proof.
  intros p.
  exact (proj1 (detection_failure_never_copies sample no_crop_options
                  ["clips"] ["out"] p ["out"; "bad_noblack.mp4"] "video"
                  failing_world
                  (snd (BlackRemove.detect sample no_crop_options "video" p
                          failing_world))
                  (Exn RuntimeError [Lit "cannot open video"])
                  eq_refl eq_refl eq_refl eq_refl eq_refl)).
Defined.

(* ===================================================================== *)
(** * What the options reach *)
(* ===================================================================== *)

Lemma media_type_cases (s m : string) :
  media_type_of s = Some m -> m = "video" \/ m = "image".
Proof.
  unfold media_type_of. destruct (str_in s video_extensions); [intros [= <-]; auto|].
  destruct (str_in s image_extensions); [intros [= <-]; auto | discriminate].
Qed.

Lemma detect_ignores_options (ext : collaborators) (c c' a mf mf' : json)
    (m : string) (p : path) (w : world) :
  (m = "video" -> json_eq_str a "static" = false) ->
  BlackRemove.detect ext (BlackRemove.Options c a mf) m p w
    = BlackRemove.detect ext (BlackRemove.Options c' a mf') m p w.
Proof.
  intros H. unfold BlackRemove.detect. simpl.
  destruct (String.eqb m "video") eqn:E; [|reflexivity].
  apply String.eqb_eq in E. now rewrite (H E).
Qed.

(** X8. [max_frames] reaches a detector only for a video under the
    ["static"] algorithm, and [crop_enabled] is read as a Python truth
    value: for an image, or a video under another algorithm, two runs of
    the loop body whose options differ in [max_frames] and in the form of
    [crop_enabled], but not in its truth value, do exactly the same. *)
Theorem unused_options_do_not_matter :
  forall (ext : collaborators) (c c' a mf mf' : json)
         (input_dir output_dir p : path) (w : world),
    truthy c = truthy c' ->
    (media_type_of (Pathlib.lower (Pathlib.suffix p)) = Some "video" ->
     json_eq_str a "static" = false) ->
    BlackRemove.process_path ext (BlackRemove.Options c a mf) input_dir output_dir p w
    = BlackRemove.process_path ext (BlackRemove.Options c' a mf') input_dir output_dir p w.
Proof.
  intros ext c c' a mf mf' input_dir output_dir p w Hc Hs.
  unfold BlackRemove.process_path, bind, get_files.
  destruct (negb (is_file (files w) p)); [reflexivity|].
  destruct (media_type_of _) as [m|] eqn:Hm; [|reflexivity].
  destruct (output_file_of _ _ _) as [t|]; [|reflexivity].
  destruct (path_exists (files w) t); [reflexivity|].
  unfold try_except, BlackRemove.try_body, bind.
  rewrite (detect_ignores_options ext c c' a mf mf' m p w).
  - destruct (BlackRemove.detect _ _ _ _ _) as [[d|e] w1]; [|reflexivity].
    unfold BlackRemove.copy_or_crop. cbn [BlackRemove.crop_enabled].
    now rewrite Hc.
  - intros ->. now apply Hs.
Qed.

Lemma unused_options_do_not_matter_witness :
  BlackRemove.process_path sample
    (BlackRemove.Options (JStr "false") (JStr "dynamic") (JInt 3))
    ["clips"] ["out"] ["clips"; "top.mp4"] sample_world
  = BlackRemove.process_path sample default_options
      ["clips"] ["out"] ["clips"; "top.mp4"] sample_world.
Proof.
  apply (unused_options_do_not_matter sample
           (JStr "false") (JBool true) (JStr "dynamic") (JInt 3) (JInt 500));
    reflexivity.
Defined.

(* ===================================================================== *)
(** * Directories *)
(* ===================================================================== *)

Section Directories.

Lemma mkdir_chain_keeps (qs : list path) (f f' : fsys) (q : path) (n : node) :
  mkdir_chain qs f = Ok f' -> node_at f q = Some n -> node_at f' q = Some n.
Proof.
  revert f. induction qs as [|q0 qs IH]; intros f H Hq; simpl in H.
  - now injection H as <-.
  - destruct (node_at f q0) as [[|c]|] eqn:E; [eauto | destruct qs; discriminate |].
    apply (IH _ H). unfold node_at in *. destruct q as [|x q]; [exact Hq|].
    rewrite lookup_insert_ne; [exact Hq|]. intros ->. congruence.
Qed.

Lemma mkdir_chain_dirs (qs : list path) (f f' : fsys) (q : path) :
  mkdir_chain qs f = Ok f' -> In q qs -> node_at f' q = Some Dir.
Proof.
  revert f. induction qs as [|q0 qs IH]; intros f H Hin; simpl in H, Hin;
    [contradiction|].
  destruct (node_at f q0) as [[|c]|] eqn:E; [| destruct qs; discriminate |].
  - destruct Hin as [<- | Hin]; [|eauto].
    exact (mkdir_chain_keeps _ _ _ _ _ H E).
  - destruct Hin as [<- | Hin]; [|eauto].
    apply (mkdir_chain_keeps _ _ _ _ _ H).
    unfold node_at in *. destruct q0; [discriminate|]. apply lookup_insert_eq.
Qed.

Lemma self_in_prefixes (p : path) : p <> [] -> In p (prefixes p).
Proof.
  intros Hp. unfold prefixes. apply in_map_iff. exists (length p). split.
  - apply firstn_all.
  - apply in_seq. destruct p; [congruence | simpl; lia].
Qed.

(** After [mkdir(parents=True, exist_ok=True)] returns, the directory is
    there. *)
Lemma mkdir_parents_makes (ext : collaborators) (p : path) (w w1 : world) :
  mkdir_parents ext p w = (Ok tt, w1) ->
  is_dir (files w1) p = true
  /\ trace w1 = trace w ++ [EMkdir p]
  /\ mkdir_chain (prefixes p) (files w) = Ok (files w1).
Proof.
  unfold mkdir_parents. run_monad.
  destruct (io_fault ext (files w) (OpMkdir p)); [discriminate|].
  destruct (mkdir_chain (prefixes p) (files w)) as [f'|e] eqn:E; [|discriminate].
  intros [= <-]. simpl. split; [|split; reflexivity].
  unfold is_dir. destruct p as [|c p]; [reflexivity|].
  assert (Hne : c :: p <> []) by discriminate.
  now rewrite (mkdir_chain_dirs _ _ _ (c :: p) E (self_in_prefixes _ Hne)).
Qed.

Lemma grows_keeps_dir (output_dir : path) (f f' : fsys) (q : path) :
  grows output_dir f f' -> is_dir f q = true -> is_dir f' q = true.
Proof.
  intros G. unfold is_dir, node_at. destruct q as [|c q]; [auto|].
  destruct (G (c :: q)) as [-> | [-> _]]; [auto | discriminate].
Qed.

End Directories.

(** X9. A batch that returns leaves the output root in place as a
    directory and returns its path, in both files, also when there was
    nothing to process. *)
Theorem returned_output_root_exists :
  forall (ext : collaborators) (inp out : json) (opts : BlackRemove.options)
         (output_dir : path) (w : world),
    Path out = Ok output_dir ->
    (forall r w', BlackRemove.batch_process_media ext inp out opts w = (Ok r, w') ->
                  fst r = Pathlib.to_string output_dir
                  /\ is_dir (files w') output_dir = true)
    /\ (forall r w', VideoBlackRemove.batch_crop_videos ext inp out w = (Ok r, w') ->
                     fst r = Pathlib.to_string output_dir
                     /\ is_dir (files w') output_dir = true).
Proof.
  intros ext inp out opts output_dir w Hout. split; intros r w'.
  - unfold BlackRemove.batch_process_media, BlackRemove.process_all.
    unfold bind at 1. unfold lift at 1.
    destruct (Path inp) as [input_dir|e]; [|discriminate].
    unfold bind at 1. unfold lift at 1. rewrite Hout.
    unfold bind at 1.
    destruct (mkdir_parents ext output_dir w) as [[[]|e] w1] eqn:Hmk; [|discriminate].
    apply mkdir_parents_makes in Hmk as (Hd & _ & _).
    unfold bind at 1. unfold get_files at 1. unfold bind, ret.
    pose proof (for_each_grows output_dir _ (process_path_grows ext output_dir opts input_dir)
                  (rglob (files w1) input_dir) w1) as G.
    destruct (for_each _ _ w1) as [[outs|e] w2]; [|discriminate].
    intros [= <- <-]. simpl in *. split; [reflexivity|].
    exact (grows_keeps_dir _ _ _ _ G Hd).
  - unfold VideoBlackRemove.batch_crop_videos, VideoBlackRemove.process_all.
    unfold bind at 1. unfold lift at 1.
    destruct (Path inp) as [input_dir|e]; [|discriminate].
    unfold bind at 1. unfold lift at 1. rewrite Hout.
    unfold bind at 1.
    destruct (mkdir_parents ext output_dir w) as [[[]|e] w1] eqn:Hmk; [|discriminate].
    apply mkdir_parents_makes in Hmk as (Hd & _ & _).
    unfold bind at 1. unfold get_files at 1. unfold bind, ret.
    pose proof (for_each_grows output_dir _ (process_path_video_grows ext output_dir input_dir)
                  (rglob (files w1) input_dir) w1) as G.
    destruct (for_each _ _ w1) as [[outs|e] w2]; [|discriminate].
    intros [= <- <-]. simpl in *. split; [reflexivity|].
    exact (grows_keeps_dir _ _ _ _ G Hd).
Qed.

Lemma returned_output_root_exists_witness :
  is_dir (files (snd (BlackRemove.batch_process_media sample (JStr "missing")
                        (JStr "deep/out") default_options missing_world)))
    ["deep"; "out"] = true.
Proof.
  pose proof (returned_output_root_exists sample (JStr "missing") (JStr "deep/out")
                default_options ["deep"; "out"] missing_world eq_refl) as [H _].
  destruct (BlackRemove.batch_process_media sample (JStr "missing") (JStr "deep/out")
              default_options missing_world) as [[r|e] w'] eqn:E.
  - exact (proj2 (H r w' eq_refl)).
  - vm_compute in E. discriminate.
Defined.

(* ===================================================================== *)
(** * Cropping *)
(* ===================================================================== *)

Section Crop.

Variable ext : collaborators.

(** The crop branch of [black_remove.py] for a video, up to the call of
    ffmpeg. *)
Lemma process_path_video_crop (opts : BlackRemove.options)
    (input_dir output_dir p t : path) (x y cw ch : Z) (w w1 : world) :
  is_file (files w) p = true ->
  media_type_of (Pathlib.lower (Pathlib.suffix p)) = Some "video" ->
  output_file_of input_dir output_dir p = Some t ->
  path_exists (files w) t = false ->
  BlackRemove.detect ext opts "video" p w = (Ok ((x, y, cw, ch), true), w1) ->
  truthy (BlackRemove.crop_enabled opts) = true ->
  0 < cw -> 0 < ch ->
  files w1 = files w
  /\ BlackRemove.process_path ext opts input_dir output_dir p w =
     match subprocess_run ext (files w) (Ffmpeg p cw ch x y t) with
     | Ok bytes =>
         (Ok Cropped,
          World (<[t := File bytes]> (files w))
            (trace w1 ++ [ESubprocessRun (Ffmpeg p cw ch x y t);
                          Print [Lit "视频裁剪完成: "; Fpath p; Lit " -> "; Fpath t]]))
     | Raise e =>
         if handled_by_crop_video e
         then (Ok (CropToolFailed e),
               World (files w)
                 (trace w1 ++ [ESubprocessRun (Ffmpeg p cw ch x y t);
                               Print (crop_failure_line "视频裁剪失败 " p e)]))
         else (Ok (Failed e),
               World (files w)
                 (trace w1 ++ [ESubprocessRun (Ffmpeg p cw ch x y t);
                               Print ([Lit "处理文件 "; Fpath p; Lit " 失败: "]
                                      ++ exn_msg e)]))
     end.
Proof.
  intros H1 H2 H3 H4 Hd Hc Hw Hh.
  pose proof (detect_reads ext opts "video" p w) as [Hf _].
  rewrite Hd in Hf. simpl in Hf. split; [exact Hf|].
  assert (Hv : (cw <=? 0) || (ch <=? 0) = false).
  { apply orb_false_iff. split; apply Z.leb_gt; assumption. }
  unfold BlackRemove.process_path. run_monad. rewrite H1, H2, H3, H4. simpl.
  unfold BlackRemove.try_body. unfold bind at 1. rewrite Hd. simpl.
  unfold BlackRemove.copy_or_crop. rewrite Hc. simpl.
  unfold BlackRemove.crop_video, run_ffmpeg, handled_by_crop_video,
    crop_failure_line. rewrite Hv. run_monad. rewrite Hf.
  destruct (subprocess_run ext (files w) _) as [bytes|e]; simpl.
  - now rewrite <- app_assoc.
  - destruct (exn_class_of e); simpl; now rewrite <- !app_assoc.
Qed.

(** The crop branch of [video_black_remove.py], up to the call of ffmpeg. *)
Lemma process_path_video_only_crop (input_dir output_dir p t : path)
    (x y cw ch size : Z) (w w2 : world) :
  is_file (files w) p = true ->
  str_in (Pathlib.lower (Pathlib.suffix p)) video_extensions = true ->
  output_file_of input_dir output_dir p = Some t ->
  path_exists (files w) t = false ->
  video_remover_remove_black ext (files w) p = Ok (x, y, cw, ch) ->
  0 < cw -> 0 < ch ->
  st_size (files w) p = Some size ->
  VideoBlackRemove.no_black (x, y, cw, ch) size = false ->
  mkdir_parents ext (Pathlib.parent t)
    (World (files w) (trace w ++ [ERemoveBlack VideoRemover p None])) = (Ok tt, w2) ->
  VideoBlackRemove.process_path ext input_dir output_dir p w =
    match subprocess_run ext (files w2) (Ffmpeg p cw ch x y t) with
    | Ok bytes =>
        (Ok Cropped,
         World (<[t := File bytes]> (files w2))
           (trace w2 ++ [ESubprocessRun (Ffmpeg p cw ch x y t);
                         Print [Lit "裁剪完成: "; Fpath p; Lit " -> "; Fpath t]]))
    | Raise e =>
        if handled_by_crop_video e
        then (Ok (CropToolFailed e),
              World (files w2)
                (trace w2 ++ [ESubprocessRun (Ffmpeg p cw ch x y t);
                              Print (crop_failure_line "裁剪失败" p e)]))
        else (Raise e,
              World (files w2) (trace w2 ++ [ESubprocessRun (Ffmpeg p cw ch x y t)]))
    end.
Proof.
  intros H1 H2 H3 H4 Hd Hw Hh Hs Hn Hmk.
  assert (Hv : (cw <=? 0) || (ch <=? 0) = false).
  { apply orb_false_iff. split; apply Z.leb_gt; assumption. }
  unfold VideoBlackRemove.process_path, remove_black, VideoBlackRemove.stat_size.
  run_monad. rewrite H1, H2, H3, H4. simpl. rewrite Hd. simpl.
  rewrite Hv. simpl. rewrite Hs. simpl.
  unfold VideoBlackRemove.no_black in Hn. rewrite Hn. rewrite Hmk.
  unfold VideoBlackRemove.crop_video, run_ffmpeg, handled_by_crop_video,
    crop_failure_line. run_monad.
  destruct (subprocess_run ext (files w2) _) as [bytes|e]; simpl.
  - now rewrite <- app_assoc.
  - destruct (exn_class_of e); simpl; rewrite <- ?app_assoc; reflexivity.
Qed.

End Crop.

(** X10. In [black_remove.py] a video that has bars is sent to ffmpeg
    with the detected rectangle [(x, y, w, h)] as [crop=w:h:x:y], from the
    input file to the target, on the file system as the loop body found
    it: no directory is made on this branch. When ffmpeg succeeds the file
    ends as [Cropped] and the target, holding what ffmpeg wrote, is the
    only change. *)
Theorem video_crop_uses_the_rectangle :
  forall (ext : collaborators) (opts : BlackRemove.options)
         (input_dir output_dir p t : path) (x y cw ch : Z) (w w1 : world)
         (bytes : string),
    is_file (files w) p = true ->
    media_type_of (Pathlib.lower (Pathlib.suffix p)) = Some "video" ->
    output_file_of input_dir output_dir p = Some t ->
    path_exists (files w) t = false ->
    BlackRemove.detect ext opts "video" p w = (Ok ((x, y, cw, ch), true), w1) ->
    truthy (BlackRemove.crop_enabled opts) = true ->
    0 < cw -> 0 < ch ->
    subprocess_run ext (files w)
      {| ff_input := p; ff_crop_w := cw; ff_crop_h := ch;
         ff_crop_x := x; ff_crop_y := y; ff_output := t |} = Ok bytes ->
    BlackRemove.process_path ext opts input_dir output_dir p w =
      (Ok Cropped,
       World (<[t := File bytes]> (files w))
         (trace w1 ++
          [ESubprocessRun {| ff_input := p; ff_crop_w := cw; ff_crop_h := ch;
                             ff_crop_x := x; ff_crop_y := y; ff_output := t |};
           Print [Lit "视频裁剪完成: "; Fpath p; Lit " -> "; Fpath t]]))
    /\ forallb (fun e => negb (is_write e)) (trace w1) =
         forallb (fun e => negb (is_write e)) (trace w).
Proof.
  intros ext opts input_dir output_dir p t x y cw ch w w1 bytes
    H1 H2 H3 H4 Hd Hc Hw Hh Hrun.
  destruct (process_path_video_crop ext opts input_dir output_dir p t x y cw ch
              w w1 H1 H2 H3 H4 Hd Hc Hw Hh) as [_ E].
  rewrite Hrun in E. split; [exact E|].
  pose proof (detect_reads ext opts "video" p w) as [_ (evs & Ht & Hev)].
  rewrite Hd in Ht. simpl in Ht. rewrite Ht, forallb_app.
  replace (forallb (fun e => negb (is_write e)) evs) with true;
    [now rewrite andb_true_r|].
  symmetry. apply forallb_forall. intros e He.
  rewrite forallb_forall in Hev. specialize (Hev e He).
  destruct e; simpl in *; congruence.
Qed.

Lemma video_crop_uses_the_rectangle_witness :
  let p := ["clips"; "top.mp4"] in
  let run := BlackRemove.process_path sample default_options ["clips"] ["out"] p
               (snd (mkdir_parents sample ["out"] sample_world)) in
  fst run = Ok Cropped
  /\ In (ESubprocessRun (Ffmpeg p 1920 520 0 140 ["out"; "top_noblack.mp4"]))
       (trace (snd run))
  /\ files (snd run) !! ["out"; "top_noblack.mp4"] = Some (File "cropped video").
Proof.
  intros p run.
  pose proof (video_crop_uses_the_rectangle sample default_options ["clips"] ["out"]
                p ["out"; "top_noblack.mp4"] 0 140 1920 520
                (snd (mkdir_parents sample ["out"] sample_world))
                (snd (BlackRemove.detect sample default_options "video" p
                        (snd (mkdir_parents sample ["out"] sample_world))))
                "cropped video"
                eq_refl eq_refl eq_refl eq_refl eq_refl eq_refl eq_refl eq_refl
                eq_refl) as [E _].
  unfold run. rewrite E. simpl. split; [reflexivity|]. split.
  - apply in_or_app. right. simpl. auto.
  - apply lookup_insert_eq.
Defined.

(** X11. [video_black_remove.py] makes the directory of the target before
    it crops: when ffmpeg is run for a video whose rectangle differs from
    the file size, the directory of the target is there, the command
    carries the detected rectangle, and on success the file ends as
    [Cropped] with the target holding what ffmpeg wrote. *)
Theorem video_only_crop_has_its_directory :
  forall (ext : collaborators) (input_dir output_dir p t : path)
         (x y cw ch size : Z) (w w2 : world) (bytes : string),
    is_file (files w) p = true ->
    str_in (Pathlib.lower (Pathlib.suffix p)) video_extensions = true ->
    output_file_of input_dir output_dir p = Some t ->
    path_exists (files w) t = false ->
    video_remover_remove_black ext (files w) p = Ok (x, y, cw, ch) ->
    0 < cw -> 0 < ch ->
    st_size (files w) p = Some size ->
    VideoBlackRemove.no_black (x, y, cw, ch) size = false ->
    mkdir_parents ext (Pathlib.parent t)
      (World (files w) (trace w ++ [ERemoveBlack VideoRemover p None])) = (Ok tt, w2) ->
    subprocess_run ext (files w2)
      {| ff_input := p; ff_crop_w := cw; ff_crop_h := ch;
         ff_crop_x := x; ff_crop_y := y; ff_output := t |} = Ok bytes ->
    is_dir (files w2) (Pathlib.parent t) = true
    /\ VideoBlackRemove.process_path ext input_dir output_dir p w =
         (Ok Cropped,
          World (<[t := File bytes]> (files w2))
            (trace w ++
             [ERemoveBlack VideoRemover p None;
              EMkdir (Pathlib.parent t);
              ESubprocessRun {| ff_input := p; ff_crop_w := cw; ff_crop_h := ch;
                                ff_crop_x := x; ff_crop_y := y; ff_output := t |};
              Print [Lit "裁剪完成: "; Fpath p; Lit " -> "; Fpath t]])).
Proof.
  intros ext input_dir output_dir p t x y cw ch size w w2 bytes
    H1 H2 H3 H4 Hd Hw Hh Hs Hn Hmk Hrun.
  pose proof (mkdir_parents_makes ext _ _ _ Hmk) as (Hdir & Htr & _).
  split; [exact Hdir|].
  rewrite (process_path_video_only_crop ext input_dir output_dir p t x y cw ch
             size w w2 H1 H2 H3 H4 Hd Hw Hh Hs Hn Hmk).
  rewrite Hrun, Htr. simpl. now rewrite <- !app_assoc.
Qed.

Lemma video_only_crop_has_its_directory_witness :
  let p := ["clips"; "a"; "full.mp4"] in
  fst (VideoBlackRemove.process_path sample ["clips"] ["out"] p sample_world)
    = Ok Cropped
  /\ is_dir (files (snd (VideoBlackRemove.process_path sample ["clips"] ["out"] p
                           sample_world))) ["out"; "a"] = true.
Proof.
  intros p.
  pose proof (video_only_crop_has_its_directory sample ["clips"] ["out"] p
                ["out"; "a"; "full_noblack.mp4"] 0 0 1920 800 16 sample_world
                (snd (mkdir_parents sample ["out"; "a"]
                        (World (files sample_world)
                           (trace sample_world ++ [ERemoveBlack VideoRemover p None]))))
                "cropped video"
                eq_refl eq_refl eq_refl eq_refl eq_refl eq_refl eq_refl eq_refl
                eq_refl eq_refl eq_refl) as [_ E].
  rewrite E. split; vm_compute; reflexivity.
Defined.



(** X13. [crop_image] does not look at what [cv2.imwrite] returns: once
    the image is read and the directory of the target made, the file ends
    as [Cropped] and the completion line is printed whether [imwrite]
    wrote the target or returned without writing; in the second case the
    target is still missing after the "completed" line. *)
Theorem image_crop_ignores_imwrite_result :
  forall (ext : collaborators) (opts : BlackRemove.options)
         (input_dir output_dir p t : path) (x1 y1 x2 y2 : Z) (img : image)
         (w w1 w2 : world) (written_bytes : option string),
    is_file (files w) p = true ->
    media_type_of (Pathlib.lower (Pathlib.suffix p)) = Some "image" ->
    output_file_of input_dir output_dir p = Some t ->
    path_exists (files w) t = false ->
    BlackRemove.detect ext opts "image" p w = (Ok ((x1, y1, x2, y2), true), w1) ->
    truthy (BlackRemove.crop_enabled opts) = true ->
    0 < x2 - x1 -> 0 < y2 - y1 ->
    cv2_imread ext (files w) p = Ok (Some img) ->
    os_makedirs ext (Pathlib.parent t)
      (World (files w) (trace w1 ++ [EImread p])) = (Ok tt, w2) ->
    cv2_imwrite ext (files w2) t img (x1, y1, x2, y2) = Ok written_bytes ->
    let run := BlackRemove.process_path ext opts input_dir output_dir p w in
    run =
      (Ok Cropped,
       World (match written_bytes with
              | Some bytes => <[t := File bytes]> (files w2)
              | None => files w2
              end)
         (trace w2 ++ [EImwrite t (x1, y1, x2, y2);
                       Print [Lit "图片裁剪完成: "; Fpath p; Lit " -> "; Fpath t]]))
    /\ files (snd run) !! t = File <$> written_bytes.
Proof.
  intros ext opts input_dir output_dir p t x1 y1 x2 y2 img w w1 w2 written_bytes
    H1 H2 H3 H4 Hd Hc Hw Hh Hread Hmk Hwrite run.
  pose proof (detect_reads ext opts "image" p w) as [Hf _].
  rewrite Hd in Hf. simpl in Hf.
  assert (Hv : (x2 - x1 <=? 0) || (y2 - y1 <=? 0) = false).
  { apply orb_false_iff. split; apply Z.leb_gt; assumption. }
  assert (E : run =
    (Ok Cropped,
     World (match written_bytes with
            | Some bytes => <[t := File bytes]> (files w2)
            | None => files w2
            end)
       (trace w2 ++ [EImwrite t (x1, y1, x2, y2);
                     Print [Lit "图片裁剪完成: "; Fpath p; Lit " -> "; Fpath t]]))).
  { unfold run, BlackRemove.process_path. run_monad. rewrite H1, H2, H3, H4. simpl.
    unfold BlackRemove.try_body. unfold bind at 1. rewrite Hd. simpl.
    unfold BlackRemove.copy_or_crop. rewrite Hc. simpl.
    unfold BlackRemove.crop_image. rewrite Hv. unfold ask. run_monad.
    rewrite Hf, Hread. simpl. rewrite Hmk. simpl.
    unfold imwrite. run_monad. rewrite Hwrite.
    destruct written_bytes; simpl; now rewrite <- app_assoc. }
  split; [exact E|]. rewrite E. simpl.
  destruct written_bytes as [bytes|]; simpl; [apply lookup_insert_eq|].
  destruct (fresh_target_intro output_dir input_dir p t (files w) H3 H4)
    as (Hn & _ & _ & Hpre & Hnot).
  pose proof (os_makedirs_grows ext output_dir (Pathlib.parent t)
                (World (files w) (trace w1 ++ [EImread p])) Hpre) as [_ N].
  rewrite Hmk in N. simpl in N. now apply N.
Qed.

Lemma image_crop_ignores_imwrite_result_witness :
  let ext := {| video_remover_remove_black := video_remover_remove_black sample;
                img_black_remover_remove_black := img_black_remover_remove_black sample;
                black_remover_start := fun _ _ => Ok (0, 60, 640, 420);
                cv2_video_capture_get := cv2_video_capture_get sample;
                cv2_imread := cv2_imread sample;
                cv2_imwrite := fun _ _ _ _ => Ok None;
                subprocess_run := subprocess_run sample;
                io_fault := io_fault sample;
                json_load := json_load sample;
                json_dump := json_dump sample;
                sys_executable := sys_executable sample;
                conda_default_env := conda_default_env sample |} in
  let run := BlackRemove.process_path ext default_options ["clips"] ["out"]
               ["clips"; "c.PNG"] sample_world in
  fst run = Ok Cropped
  /\ files (snd run) !! ["out"; "c_noblack.PNG"] = None.
Proof.
  intros ext run.
  pose proof (image_crop_ignores_imwrite_result ext default_options ["clips"] ["out"]
                ["clips"; "c.PNG"] ["out"; "c_noblack.PNG"] 0 60 640 420
                (Image 480 640 "pixels") sample_world
                (snd (BlackRemove.detect ext default_options "image"
                        ["clips"; "c.PNG"] sample_world))
                (snd (os_makedirs ext ["out"]
                        (World (files sample_world)
                           (trace (snd (BlackRemove.detect ext default_options "image"
                                          ["clips"; "c.PNG"] sample_world))
                            ++ [EImread ["clips"; "c.PNG"]]))))
                None
                eq_refl eq_refl eq_refl eq_refl eq_refl eq_refl eq_refl eq_refl
                eq_refl eq_refl eq_refl) as [E Hn].
  fold run in E, Hn. split; [now rewrite E | exact Hn].
Defined.

(* ===================================================================== *)
(** * Copies *)
(* ===================================================================== *)

Section Copies.

Variable ext : collaborators.
Variable output_dir : path.

Lemma crop_video_not_copied (p t : path) (r : rect) (w : world) :
  fst (BlackRemove.crop_video ext p t r w) <> Ok Copied
  /\ fst (VideoBlackRemove.crop_video ext p t r w) <> Ok Copied.
Proof.
  destruct r as [[[x y] cw] ch].
  unfold BlackRemove.crop_video, VideoBlackRemove.crop_video, run_ffmpeg.
  run_monad. split.
  - destruct ((cw <=? 0) || (ch <=? 0)); simpl; [discriminate|].
    destruct (subprocess_run ext (files w) _) as [bytes|e]; simpl; [discriminate|].
    destruct (exn_class_of e); simpl; discriminate.
  - destruct (subprocess_run ext (files w) _) as [bytes|e]; simpl; [discriminate|].
    destruct (exn_class_of e); simpl; discriminate.
Qed.

Lemma crop_image_not_copied (p t : path) (r : rect) (w : world) :
  fst (BlackRemove.crop_image ext p t r w) <> Ok Copied.
Proof.
  destruct r as [[[x1 y1] x2] y2]. unfold BlackRemove.crop_image, ask. run_monad.
  destruct ((x2 - x1 <=? 0) || (y2 - y1 <=? 0)); simpl; [discriminate|].
  destruct (cv2_imread ext (files w) p) as [[img|]|e]; simpl; try discriminate.
  destruct (os_makedirs ext _ _) as [[u|e] w1]; simpl; [|discriminate].
  destruct (imwrite ext t img _ w1) as [[u2|e] w2]; simpl; discriminate.
Qed.

(** The directory and the copy of the copy branch, in both files: when
    they return, the target holds the bytes of the source. *)
Lemma copy_branch_result (p t : path) (w w1 w2 : world) (u u2 : unit) :
  fresh_target output_dir (files w) t ->
  mkdir_parents ext (Pathlib.parent t) w = (Ok u, w1) ->
  copy2 ext p t w1 = (Ok u2, w2) ->
  exists c, files w2 !! t = Some (File c) /\ files w2 !! p = Some (File c).
Proof.
  intros (Hn & Hne & Ha & Hpre & Hnot) E1.
  pose proof (mkdir_parents_grows ext output_dir (Pathlib.parent t) w Hpre)
    as [_ N1].
  rewrite E1 in N1. simpl in N1. specialize (N1 t Hn Hnot).
  unfold copy2. run_monad.
  destruct (io_fault ext (files w1) (OpCopy p t)); simpl; [discriminate|].
  destruct (node_at (files w1) p) as [[|c]|] eqn:Hp; simpl; try discriminate.
  rewrite (lookup_None_is_dir _ _ Hne N1). simpl.
  rewrite ?(lookup_None_is_dir _ _ Hne N1). simpl.
  destruct (is_dir (files w1) (Pathlib.parent t)); simpl; [|discriminate].
  intros [= _ <-]. simpl. exists c. split; [apply lookup_insert_eq|].
  unfold node_at in Hp. destruct p as [|x p]; [discriminate|].
  rewrite lookup_insert_ne; [exact Hp | congruence].
Qed.

Lemma process_path_copied (opts : BlackRemove.options) (input_dir p : path)
    (w w' : world) (o : outcome) :
  BlackRemove.process_path ext opts input_dir output_dir p w = (Ok o, w') ->
  copied_faithfully input_dir output_dir p o (files w').
Proof.
  unfold BlackRemove.process_path, copied_faithfully. run_monad.
  destruct (negb (is_file (files w) p)); simpl; [intros [= <- <-]; discriminate|].
  destruct (media_type_of _) as [m|]; simpl; [|intros [= <- <-]; discriminate].
  destruct (output_file_of input_dir output_dir p) as [t|] eqn:Ht; simpl;
    [|discriminate].
  destruct (path_exists (files w) t) eqn:He; simpl;
    [intros [= <- <-]; discriminate|].
  pose proof (fresh_target_intro output_dir _ _ _ _ Ht He) as Hfresh.
  unfold BlackRemove.try_body, bind.
  pose proof (detect_reads ext opts m p w) as [Hf _].
  destruct (BlackRemove.detect ext opts m p w) as [[d|e] w1]; simpl in *;
    [|intros [= <- <-]; discriminate].
  rewrite <- Hf in Hfresh.
  unfold BlackRemove.copy_or_crop.
  destruct (negb (truthy (BlackRemove.crop_enabled opts)) || negb d.2).
  - unfold bind, print, emit, ret.
    destruct (mkdir_parents ext (Pathlib.parent t) w1) as [[u|e1] w2] eqn:E1;
      simpl; [|intros [= <- <-]; discriminate].
    destruct (copy2 ext p t w2) as [[u2|e2] w3] eqn:E2; simpl;
      [|intros [= <- <-]; discriminate].
    intros [= <- <-] _. simpl.
    destruct (copy_branch_result _ _ _ _ _ _ _ Hfresh E1 E2) as (c & Hc1 & Hc2).
    exists t, c. auto.
  - destruct (String.eqb m "video").
    + pose proof (proj1 (crop_video_not_copied p t d.1 w1)) as Hnc.
      destruct (BlackRemove.crop_video ext p t d.1 w1) as [[o1|e1] w2]; simpl in *;
        [|intros [= <- <-]; discriminate].
      intros [= <- <-] ->. congruence.
    + pose proof (crop_image_not_copied p t d.1 w1) as Hnc.
      destruct (BlackRemove.crop_image ext p t d.1 w1) as [[o1|e1] w2]; simpl in *;
        [|intros [= <- <-]; discriminate].
      intros [= <- <-] ->. congruence.
Qed.

Opaque remove_black.

Lemma process_path_video_copied (input_dir p : path) (w w' : world) (o : outcome) :
  VideoBlackRemove.process_path ext input_dir output_dir p w = (Ok o, w') ->
  copied_faithfully input_dir output_dir p o (files w').
Proof.
  unfold VideoBlackRemove.process_path, copied_faithfully. run_monad.
  destruct (_ && is_file (files w) p); simpl; [|intros [= <- <-]; discriminate].
  destruct (output_file_of input_dir output_dir p) as [t|] eqn:Ht; simpl;
    [|discriminate].
  destruct (path_exists (files w) t) eqn:He; simpl;
    [intros [= <- <-]; discriminate|].
  pose proof (fresh_target_intro output_dir _ _ _ _ Ht He) as Hfresh.
  pose proof (remove_black_reads ext VideoRemover p None w) as Hf.
  destruct (remove_black ext VideoRemover p None w) as [[r|e] w1]; simpl in *;
    [|discriminate].
  destruct r as [[[x y] cw] ch].
  destruct ((cw <=? 0) || (ch <=? 0)); simpl; [intros [= <- <-]; discriminate|].
  unfold VideoBlackRemove.stat_size. run_monad.
  destruct (st_size (files w1) p) as [size|]; simpl; [|discriminate].
  rewrite <- Hf in Hfresh.
  destruct ((cw =? size) && (ch =? size)).
  - destruct (mkdir_parents ext (Pathlib.parent t) w1) as [[u|e1] w2] eqn:E1;
      simpl; [|discriminate].
    destruct (copy2 ext p t w2) as [[u2|e2] w3] eqn:E2; simpl; [|discriminate].
    intros [= <- <-] _. simpl.
    destruct (copy_branch_result _ _ _ _ _ _ _ Hfresh E1 E2) as (c & Hc1 & Hc2).
    exists t, c. auto.
  - destruct (mkdir_parents ext (Pathlib.parent t) w1) as [[u|e] w2]; simpl;
      [|discriminate].
    pose proof (proj2 (crop_video_not_copied p t (x, y, cw, ch) w2)) as Hnc.
    destruct (VideoBlackRemove.crop_video ext p t (x, y, cw, ch) w2)
      as [[o1|e1] w3]; simpl in *; [|discriminate].
    intros [= <- <-] ->. congruence.
Qed.

Transparent remove_black.

Lemma copied_faithfully_grows (input_dir p : path) (o : outcome) (f f' : fsys) :
  copied_faithfully input_dir output_dir p o f ->
  grows output_dir f f' ->
  copied_faithfully input_dir output_dir p o f'.
Proof.
  intros H G Ho. destruct (H Ho) as (t & c & Ht & Hc1 & Hc2).
  exists t, c. split; [exact Ht|]. split.
  - destruct (G t) as [-> | [N _]]; [exact Hc1 | congruence].
  - destruct (G p) as [-> | [N _]]; [exact Hc2 | congruence].
Qed.

(** What holds of each outcome when it is produced, and is kept by what
    the loop does afterwards, holds of every outcome at the end. *)
Lemma for_each_post {A} (body : A -> M outcome) (Q : A -> outcome -> fsys -> Prop) :
  (forall a w, grows output_dir (files w) (files (snd (body a w)))) ->
  (forall a b f f', Q a b f -> grows output_dir f f' -> Q a b f') ->
  (forall a w b w', body a w = (Ok b, w') -> Q a b (files w')) ->
  forall (l : list A) (w w' : world) (bs : list (A * outcome)),
    for_each body l w = (Ok bs, w') ->
    forall a b, In (a, b) bs -> Q a b (files w').
Proof.
  intros Hg Hmono Hstep l. induction l as [|a0 l IH]; intros w w' bs H a b Hin.
  - simpl in H. unfold ret in H. injection H as <- <-. contradiction.
  - simpl in H. unfold bind, ret in H.
    destruct (body a0 w) as [[b0|e] w1] eqn:E0; [|discriminate].
    pose proof (for_each_grows output_dir body Hg l w1) as G.
    destruct (for_each body l w1) as [[bs1|e] w2] eqn:E1; [|discriminate].
    injection H as <- <-. simpl in G. destruct Hin as [[= <- <-] | Hin].
    + eapply Hmono; [exact (Hstep _ _ _ _ E0) | exact G].
    + exact (IH _ _ _ E1 _ _ Hin).
Qed.

End Copies.

(** X14. Every file a run reports as copied has, when the batch returns,
    a target that holds the same bytes as the file itself, in both
    drivers: a copy is complete and nothing the loop does later spoils
    it. *)
Theorem copied_files_keep_their_bytes :
  forall (ext : collaborators) (inp out : json) (opts : BlackRemove.options)
         (input_dir output_dir : path) (w : world),
    Path inp = Ok input_dir ->
    Path out = Ok output_dir ->
    (forall r w' p,
       BlackRemove.batch_process_media ext inp out opts w = (Ok r, w') ->
       In (p, Copied) (snd r) ->
       exists t c,
         output_file_of input_dir output_dir p = Some t
         /\ files w' !! t = Some (File c)
         /\ files w' !! p = Some (File c))
    /\ (forall r w' p,
          VideoBlackRemove.batch_crop_videos ext inp out w = (Ok r, w') ->
          In (p, Copied) (snd r) ->
          exists t c,
            output_file_of input_dir output_dir p = Some t
            /\ files w' !! t = Some (File c)
            /\ files w' !! p = Some (File c)).
Proof.
  intros ext inp out opts input_dir output_dir w Hin Hout. split; intros r w' p.
  - unfold BlackRemove.batch_process_media, BlackRemove.process_all.
    unfold bind at 1. unfold lift at 1. rewrite Hin.
    unfold bind at 1. unfold lift at 1. rewrite Hout.
    unfold bind at 1.
    destruct (mkdir_parents ext output_dir w) as [[u|e] w1]; [|discriminate].
    unfold bind at 1. unfold get_files at 1. unfold bind, ret.
    destruct (for_each _ _ w1) as [[outs|e] w2] eqn:E; [|discriminate].
    intros [= <- <-] Hp. simpl in Hp.
    exact (for_each_post output_dir _
             (copied_faithfully input_dir output_dir)
             (process_path_grows ext output_dir opts input_dir)
             (copied_faithfully_grows output_dir input_dir)
             (fun a w0 b w0' => process_path_copied ext output_dir opts input_dir a w0 w0' b)
             _ _ _ _ E p Copied Hp eq_refl).
  - unfold VideoBlackRemove.batch_crop_videos, VideoBlackRemove.process_all.
    unfold bind at 1. unfold lift at 1. rewrite Hin.
    unfold bind at 1. unfold lift at 1. rewrite Hout.
    unfold bind at 1.
    destruct (mkdir_parents ext output_dir w) as [[u|e] w1]; [|discriminate].
    unfold bind at 1. unfold get_files at 1. unfold bind, ret.
    destruct (for_each _ _ w1) as [[outs|e] w2] eqn:E; [|discriminate].
    intros [= <- <-] Hp. simpl in Hp.
    exact (for_each_post output_dir _
             (copied_faithfully input_dir output_dir)
             (process_path_video_grows ext output_dir input_dir)
             (copied_faithfully_grows output_dir input_dir)
             (fun a w0 b w0' => process_path_video_copied ext output_dir input_dir a w0 w0' b)
             _ _ _ _ E p Copied Hp eq_refl).
Qed.

Lemma copied_files_keep_their_bytes_witness :
  let run := BlackRemove.batch_process_media sample (JStr "clips") (JStr "out")
               default_options sample_world in
  exists t c,
    output_file_of ["clips"] ["out"] ["clips"; "a"; "full.mp4"] = Some t
    /\ files (snd run) !! t = Some (File c)
    /\ files (snd run) !! ["clips"; "a"; "full.mp4"] = Some (File c).
Proof.
  intros run.
  pose proof (copied_files_keep_their_bytes sample (JStr "clips") (JStr "out")
                default_options ["clips"] ["out"] sample_world eq_refl eq_refl)
    as [H _].
  destruct run as [[r|e] w'] eqn:E.
  - apply (H r w' _ E). unfold run in E. vm_compute in E.
    injection E as <- _. simpl. auto 10.
  - unfold run in E. vm_compute in E. discriminate.
Defined.

(* ===================================================================== *)
(** * Trees without media *)
(* ===================================================================== *)





(* ===================================================================== *)
(** * A failing crop tool *)
(* ===================================================================== *)




(* ===================================================================== *)
(** * A second run *)
(* ===================================================================== *)



Section SecondRun.

Variable ext : collaborators.
Variables input_dir output_dir : path.













Opaque remove_black.


Transparent remove_black.





End SecondRun.



